(** * Landmark geometric analysis engine: a shallow embedding

    This development embeds [backend/app/core/facial_analyzer.py]
    (class [ModernFacialBeautyAnalyzer]) together with the result models of
    [backend/app/models/analysis.py], and states the properties of the
    specification over that embedding.

    Modelling conventions.
    - A Python [float] is a real number ([R]): arithmetic is exact, so
      rounding error, infinities and NaN are outside the model.  A float
      division whose denominator is zero has no real value and is the
      outcome [Raise ZeroDivisionError].
    - The analyzer object [self] is a record of its two tables; a method
      takes [self] when it reads one of them.
    - A Python [int] is an integer ([Z]); [int(v)] truncates toward zero.
    - A [dict] with string keys is an association list in insertion order;
      its values are [pyval]s.
    - Code that can raise returns a [result]; [try ... except Exception] is
      [try_except].
    - [datetime.now()] reads the clock, which is an explicit argument [now].
    - Logging has no effect on results and is left out. *)

From Stdlib Require Import Reals Lra Lia ZArith List Ascii String Bool.
Import ListNotations.

Open Scope string_scope.
Open Scope R_scope.

(** ** Python runtime fragments *)

Inductive exn : Type :=
| IndexError
| KeyError (key : string)
| ZeroDivisionError
| ValidationError (model field : string)
| AnalysisError (stage : string) (cause : exn).

Inductive result (A : Type) : Type :=
| Ok (a : A)
| Raise (e : exn).

Arguments Ok {A} a.
Arguments Raise {A} e.

Definition bind {A B : Type} (m : result A) (k : A -> result B) : result B :=
  match m with
  | Ok a => k a
  | Raise e => Raise e
  end.

Notation "v <- m ;; k" := (bind m (fun v => k))
  (at level 61, m at next level, right associativity).

Definition try_except {A : Type} (body : result A) (handler : exn -> result A)
  : result A :=
  match body with
  | Ok a => Ok a
  | Raise e => handler e
  end.

(** Comparisons of floats, as booleans. *)
Definition fle (a b : R) : bool := if Rle_dec a b then true else false.
Definition flt (a b : R) : bool := if Rlt_dec a b then true else false.
Definition feq (a b : R) : bool := if Req_dec_T a b then true else false.

(** [a / b] on floats. *)
Definition py_div (a b : R) : result R :=
  if feq b 0 then Raise ZeroDivisionError else Ok (a / b).

(** [int(v)]: truncation toward zero. *)
Definition py_int (v : R) : Z :=
  if fle 0 v then Int_part v else (- Int_part (- v))%Z.

(** Rounding to the nearest integer, ties to even. *)
Definition round_half_even (v : R) : Z :=
  let f := Int_part v in
  let d := v - IZR f in
  if flt d (1 / 2) then f
  else if flt (1 / 2) d then (f + 1)%Z
  else if Z.even f then f else (f + 1)%Z.

(** [round(v, ndigits)]. *)
Definition py_round (v : R) (ndigits : nat) : R :=
  IZR (round_half_even (v * 10 ^ ndigits)) / 10 ^ ndigits.

(** [max(a, b)] and [min(a, b, c)]: the first argument is kept unless a
    later one is strictly greater (smaller). *)
Definition py_max (a b : R) : R := if flt a b then b else a.
Definition py_min (a b : R) : R := if flt b a then b else a.
Definition py_min3 (a b c : R) : R := py_min (py_min a b) c.

(** Python values that occur in the analysis records. *)
#[local] Set Warnings "-register-all".
Inductive pyval : Type :=
| VNone
| VBool (b : bool)
| VInt (n : Z)
| VFloat (r : R)
| VStr (s : string)
| VFmt (parts : list pyval)
| VList (l : list pyval)
| VDict (d : list (string * pyval)).

(** [VFmt parts] is an f-string: the concatenation of the renderings of its
    parts.  The decimal rendering of a float is not modelled, so the parts
    are kept as they are. *)

Definition pydict : Type := list (string * pyval).

Fixpoint dict_get (k : string) (d : pydict) : option pyval :=
  match d with
  | [] => None
  | (k', v) :: rest => if String.eqb k k' then Some v else dict_get k rest
  end.

(** [d[k]] *)
Definition dict_item (k : string) (d : pydict) : result pyval :=
  match dict_get k d with
  | Some v => Ok v
  | None => Raise (KeyError k)
  end.

(** [d.get(k, default)] *)
Definition dict_get_default (k : string) (default : pyval) (d : pydict) : pyval :=
  match dict_get k d with
  | Some v => v
  | None => default
  end.


(** Truth value of a Python object. *)
Definition truthy (v : pyval) : bool :=
  match v with
  | VNone => false
  | VBool b => b
  | VInt n => negb (Z.eqb n 0)
  | VFloat r => negb (feq r 0)
  | VStr s => negb (String.eqb s "")
  | VFmt parts => match parts with [] => false | _ => true end
  | VList l => match l with [] => false | _ => true end
  | VDict d => match d with [] => false | _ => true end
  end.

(** ** Landmarks and constants *)

(** A landmark as the analyzer reads it: normalized [x] and [y]. *)
Record Landmark : Type := mkLandmark { x : R; y : R }.

(** [landmarks[i]] on the landmark sequence. *)
Definition getitem (landmarks : list Landmark) (i : nat) : result Landmark :=
  match nth_error landmarks i with
  | Some p => Ok p
  | None => Raise IndexError
  end.

(** The table [self.beauty_standards]; its keys are fixed, so it is a
    record. *)
Module BeautyStandards.
Record t : Type := make {
    golden_ratio : R;
    silver_ratio : R;
    japanese_face_ratio : R;
    nasolabial_angle_min : R;
    nasolabial_angle_max : R;
    philtrum_chin_ratio_ideal : R;
    philtrum_chin_ratio_modern : R;
    eline_tolerance : R;
    eye_width_ratio : R;
    facial_thirds : list R;
    facial_fifths : list R
  }.
End BeautyStandards.

(** The table [self.landmarks]: named positions in the landmark
    sequence. *)
Module LandmarkTable.
Record t : Type := make {
    nose_tip : nat;
    chin_tip : nat;
    forehead_center : nat;
    nose_bottom : nat;
    left_eye_outer : nat;
    right_eye_outer : nat;
    left_eye_inner : nat;
    right_eye_inner : nat;
    left_eye_center : nat;
    right_eye_center : nat;
    mouth_left : nat;
    mouth_right : nat;
    upper_lip_center : nat;
    lower_lip_center : nat;
    upper_lip_top : nat;
    lower_lip_bottom : nat;
    left_cheek : nat;
    right_cheek : nat;
    left_jaw : nat;
    right_jaw : nat;
    left_eyebrow_outer : nat;
    right_eyebrow_outer : nat;
    left_eyebrow_inner : nat;
    right_eyebrow_inner : nat;
    nose_left : nat;
    nose_right : nat;
    nasal_bridge_top : nat;
    nasal_bridge_mid : nat
  }.
End LandmarkTable.

(** The analyzer object ([self]); the handles of the landmark detector
    are not part of the analysis and are left out. *)
Module Analyzer.
Record t : Type := make {
    beauty_standards : BeautyStandards.t;
    landmarks : LandmarkTable.t;
    jawline_landmarks : list nat
  }.
End Analyzer.

Definition std (self : Analyzer.t) : BeautyStandards.t :=
  Analyzer.beauty_standards self.
Definition idx (self : Analyzer.t) : LandmarkTable.t :=
  Analyzer.landmarks self.

(** [ModernFacialBeautyAnalyzer.__init__] *)
Definition init : Analyzer.t :=
  {| Analyzer.beauty_standards :=
       {| BeautyStandards.golden_ratio := 1.618;
          BeautyStandards.silver_ratio := 1.414;
          BeautyStandards.japanese_face_ratio := 1.46;
          BeautyStandards.nasolabial_angle_min := 100;
          BeautyStandards.nasolabial_angle_max := 110;
          BeautyStandards.philtrum_chin_ratio_ideal := 2.0;
          BeautyStandards.philtrum_chin_ratio_modern := 3.0;
          BeautyStandards.eline_tolerance := 2.0;
          BeautyStandards.eye_width_ratio := 3.0;
          BeautyStandards.facial_thirds := [1; 1; 1];
          BeautyStandards.facial_fifths := [1; 1; 1; 1; 1] |};
     Analyzer.landmarks :=
       {| LandmarkTable.nose_tip := 1;
          LandmarkTable.chin_tip := 152;
          LandmarkTable.forehead_center := 10;
          LandmarkTable.nose_bottom := 2;
          LandmarkTable.left_eye_outer := 33;
          LandmarkTable.right_eye_outer := 263;
          LandmarkTable.left_eye_inner := 133;
          LandmarkTable.right_eye_inner := 362;
          LandmarkTable.left_eye_center := 468;
          LandmarkTable.right_eye_center := 473;
          LandmarkTable.mouth_left := 61;
          LandmarkTable.mouth_right := 291;
          LandmarkTable.upper_lip_center := 13;
          LandmarkTable.lower_lip_center := 14;
          LandmarkTable.upper_lip_top := 0;
          LandmarkTable.lower_lip_bottom := 17;
          LandmarkTable.left_cheek := 234;
          LandmarkTable.right_cheek := 454;
          LandmarkTable.left_jaw := 172;
          LandmarkTable.right_jaw := 397;
          LandmarkTable.left_eyebrow_outer := 70;
          LandmarkTable.right_eyebrow_outer := 300;
          LandmarkTable.left_eyebrow_inner := 107;
          LandmarkTable.right_eyebrow_inner := 336;
          LandmarkTable.nose_left := 131;
          LandmarkTable.nose_right := 360;
          LandmarkTable.nasal_bridge_top := 6;
          LandmarkTable.nasal_bridge_mid := 168 |};
     Analyzer.jawline_landmarks :=
       [172; 136; 150; 149; 176; 148; 152; 377; 400; 378; 379; 365; 397;
        288; 361; 323]%nat |}.

(** Labels, named as the specification calls them. *)
Definition label_unknown : string := "unknown".
Definition label_frontal : string := "正面".
Definition label_facing_right : string := "右向き".
Definition label_facing_left : string := "左向き".
Definition label_oblique : string := "斜め".
Definition label_ideal : string := "理想的".
Definition label_good : string := "良好".
Definition label_standard : string := "標準的".
Definition label_excellent : string := "優秀".
Definition label_individual : string := "個性的".
Definition proportions_error_message : string := "顔の幅を測定できませんでした".

(** ** Helper methods *)

(** [_calculate_distance]: pixel distance between two landmarks;
    [image_shape] is [(height, width)]. *)
Definition _calculate_distance (point1 point2 : Landmark) (image_shape : Z * Z)
  : R :=
  let x1 := py_int (x point1 * IZR (snd image_shape)) in
  let y1 := py_int (y point1 * IZR (fst image_shape)) in
  let x2 := py_int (x point2 * IZR (snd image_shape)) in
  let y2 := py_int (y point2 * IZR (fst image_shape)) in
  sqrt (IZR ((x2 - x1) ^ 2 + (y2 - y1) ^ 2)).

(** Two-component arrays. *)
Definition vec : Type := (R * R)%type.
Definition np_array (p : Landmark) : vec := (x p, y p).
Definition vsub (u v : vec) : vec := (fst u - fst v, snd u - snd v).
Definition np_linalg_norm (v : vec) : R := sqrt (fst v * fst v + snd v * snd v).
Definition np_cross (u v : vec) : R := fst u * snd v - snd u * fst v.

(** [_point_to_line_distance]: distance from [point] to the line through
    [line_point1] and [line_point2], in normalized coordinates. *)
Definition _point_to_line_distance (point line_point1 line_point2 : Landmark)
  : result R :=
  let p := np_array point in
  let a := np_array line_point1 in
  let b := np_array line_point2 in
  if feq (np_linalg_norm (vsub b a)) 0 then
    Ok (np_linalg_norm (vsub p a))
  else
    py_div (Rabs (np_cross (vsub b a) (vsub p a))) (np_linalg_norm (vsub b a)).

(** [_get_angle_warning]: the warning message, when the angle is not
    suitable for analysis. *)
Definition _get_angle_warning (face_angle : pydict) : result (option pyval) :=
  if negb (truthy (dict_get_default "suitable_for_analysis" (VBool true) face_angle))
  then
    angle <- dict_item "angle" face_angle ;;
    confidence <- dict_item "confidence" face_angle ;;
    Ok (Some (VFmt [VStr "⚠️ 検出された角度: "; angle; VStr " ";
                    VStr "(信頼度: "; confidence;
                    VStr ")\n正面顔での撮影を推奨します。"]))
  else Ok None.

(** ** Analysis methods *)

(** [_detect_face_angle] *)
Definition _detect_face_angle (self : Analyzer.t) (landmarks : list Landmark)
  : result pydict :=
  nose_tip <- getitem landmarks (LandmarkTable.nose_tip (idx self)) ;;
  left_cheek <- getitem landmarks (LandmarkTable.left_cheek (idx self)) ;;
  right_cheek <- getitem landmarks (LandmarkTable.right_cheek (idx self)) ;;
  let left_dist := Rabs (x nose_tip - x left_cheek) in
  let right_dist := Rabs (x nose_tip - x right_cheek) in
  if feq left_dist 0 && feq right_dist 0 then
    Ok [("angle", VStr "unknown"); ("confidence", VFloat 0.0);
        ("suitable_for_analysis", VBool false)]
  else
    ratio <- (if flt 0 (left_dist + right_dist)
              then py_div left_dist (left_dist + right_dist)
              else Ok 0.5) ;;
    let '(angle_type, confidence) :=
      if fle 0.4 ratio && fle ratio 0.6 then
        ("正面", 1.0 - Rabs (ratio - 0.5) * 2)
      else if flt ratio 0.3 then ("右向き", 0.7)
      else if flt 0.7 ratio then ("左向き", 0.7)
      else ("斜め", 0.5) in
    Ok [("angle", VStr angle_type);
        ("ratio", VFloat (py_round ratio 3));
        ("confidence", VFloat (py_round confidence 2));
        ("suitable_for_analysis", VBool (flt 0.6 confidence))].

(** [_analyze_eline] *)
Definition _analyze_eline (self : Analyzer.t) (landmarks : list Landmark)
    (image_shape : Z * Z) : result pydict :=
  nose_tip <- getitem landmarks (LandmarkTable.nose_tip (idx self)) ;;
  chin_tip <- getitem landmarks (LandmarkTable.chin_tip (idx self)) ;;
  upper_lip <- getitem landmarks (LandmarkTable.upper_lip_center (idx self)) ;;
  lower_lip <- getitem landmarks (LandmarkTable.lower_lip_center (idx self)) ;;
  left_cheek <- getitem landmarks (LandmarkTable.left_cheek (idx self)) ;;
  right_cheek <- getitem landmarks (LandmarkTable.right_cheek (idx self)) ;;
  let face_width := _calculate_distance left_cheek right_cheek image_shape in
  upper_d <- _point_to_line_distance upper_lip nose_tip chin_tip ;;
  let upper_lip_dist := upper_d * face_width in
  lower_d <- _point_to_line_distance lower_lip nose_tip chin_tip ;;
  let lower_lip_dist := lower_d * face_width in
  let max_dist := py_max (Rabs upper_lip_dist) (Rabs lower_lip_dist) in
  let status :=
    if fle max_dist 2.0 then "理想的"
    else if fle max_dist (BeautyStandards.eline_tolerance (std self)) then "良好"
    else if fle max_dist 7.0 then "標準的"
    else if flt lower_lip_dist upper_lip_dist then "上唇がやや前方"
         else "下唇がやや前方" in
  let evaluation :=
    if fle max_dist (BeautyStandards.eline_tolerance (std self)) then "良好"
    else "標準的" in
  Ok [("status", VStr status);
      ("upper_lip_distance", VFloat (py_round upper_lip_dist 2));
      ("lower_lip_distance", VFloat (py_round lower_lip_dist 2));
      ("evaluation", VStr evaluation)].

(** [_analyze_face_proportions] *)
Definition _analyze_face_proportions (self : Analyzer.t)
    (landmarks : list Landmark) (image_shape : Z * Z) : result pydict :=
  forehead_center <-
    getitem landmarks (LandmarkTable.forehead_center (idx self)) ;;
  chin_tip <- getitem landmarks (LandmarkTable.chin_tip (idx self)) ;;
  let face_height := _calculate_distance forehead_center chin_tip image_shape in
  left_cheek <- getitem landmarks (LandmarkTable.left_cheek (idx self)) ;;
  right_cheek <- getitem landmarks (LandmarkTable.right_cheek (idx self)) ;;
  let face_width := _calculate_distance left_cheek right_cheek image_shape in
  if feq face_width 0 then
    Ok [("error", VStr "顔の幅を測定できませんでした")]
  else
    aspect_ratio <- py_div face_height face_width ;;
    let golden_diff :=
      Rabs (aspect_ratio - BeautyStandards.golden_ratio (std self)) in
    let silver_diff :=
      Rabs (aspect_ratio - BeautyStandards.silver_ratio (std self)) in
    let japanese_diff :=
      Rabs (aspect_ratio - BeautyStandards.japanese_face_ratio (std self)) in
    let min_diff := py_min3 golden_diff silver_diff japanese_diff in
    let '(closest_ratio, ideal_ratio) :=
      if feq min_diff golden_diff then
        ("黄金比", BeautyStandards.golden_ratio (std self))
      else if feq min_diff silver_diff then
        ("白銀比（大和比）", BeautyStandards.silver_ratio (std self))
      else ("日本人理想比", BeautyStandards.japanese_face_ratio (std self)) in
    let evaluation :=
      if flt min_diff 0.15 then "優秀"
      else if flt min_diff 0.25 then "良好"
      else if flt min_diff 0.35 then "標準的"
      else "個性的" in
    Ok [("aspect_ratio", VFloat (py_round aspect_ratio 3));
        ("closest_ratio", VStr closest_ratio);
        ("ideal_ratio", VFloat ideal_ratio);
        ("difference", VFloat (py_round min_diff 3));
        ("evaluation", VStr evaluation)].

(** The remaining analyses return fixed records. *)

Definition _analyze_philtrum_chin_ratio (landmarks : list Landmark)
    (image_shape : Z * Z) : result pydict :=
  Ok [("philtrum_length", VFloat 10.0);
      ("chin_length", VFloat 20.0);
      ("ratio", VFloat 2.0);
      ("closest_ideal", VStr "クラシック理想 (1:2)");
      ("target_ratio", VFloat 2.0);
      ("difference", VFloat 0.0);
      ("evaluation", VStr "理想的")].

Definition _analyze_nasolabial_angle (landmarks : list Landmark)
  : result pydict :=
  Ok [("angle", VFloat 105.0);
      ("ideal_range", VStr "100-110度");
      ("status", VStr "理想的");
      ("evaluation", VStr "優秀")].

Definition _analyze_vline_curvature (landmarks : list Landmark)
    (image_shape : Z * Z) : result pydict :=
  Ok [("jaw_angle", VFloat 110.0);
      ("sharpness", VStr "シャープ");
      ("evaluation", VStr "良好");
      ("vline_score", VFloat 85.0)].

Definition _analyze_facial_symmetry (landmarks : list Landmark)
    (image_shape : Z * Z) : result pydict :=
  Ok [("symmetry_score", VFloat 85.0);
      ("asymmetry_level", VFloat 15.0);
      ("evaluation", VStr "良好な対称性")].

Definition _analyze_dental_protrusion (landmarks : list Landmark)
    (image_shape : Z * Z) : result pydict :=
  Ok [("max_upper_protrusion", VFloat 2.0);
      ("max_lower_protrusion", VFloat 1.5);
      ("avg_upper_protrusion", VFloat 1.8);
      ("avg_lower_protrusion", VFloat 1.3);
      ("lip_status", VStr "理想的");
      ("dental_status", VStr "正常範囲");
      ("teeth_visible", VBool false);
      ("severity", VStr "なし");
      ("lip_balance", VStr "バランス良好");
      ("ideal_range", VStr "Eラインから2-4mm以内");
      ("evaluation", VStr "正常")].

Definition _analyze_face_contour (landmarks : list Landmark)
    (image_shape : Z * Z) : result pydict :=
  Ok [("face_area", VFloat 15000.0);
      ("face_perimeter", VFloat 500.0);
      ("face_width", VFloat 150.0);
      ("face_height", VFloat 180.0);
      ("small_face_score", VFloat 85.0);
      ("cheekbone_width", VFloat 140.0);
      ("jaw_width", VFloat 120.0);
      ("cheek_jaw_ratio", VFloat 0.75);
      ("vline_evaluation", VStr "理想的")].

Definition _analyze_facial_harmony (landmarks : list Landmark)
    (image_shape : Z * Z) : result pydict :=
  Ok [("avg_eye_width", VFloat 30.0);
      ("nose_width", VFloat 25.0);
      ("mouth_width", VFloat 45.0);
      ("face_width", VFloat 150.0);
      ("face_height", VFloat 180.0);
      ("face_area", VFloat 15000.0);
      ("eye_face_ratio", VFloat 0.20);
      ("nose_face_ratio", VFloat 0.17);
      ("mouth_face_ratio", VFloat 0.30);
      ("eye_area_ratio", VFloat 0.008);
      ("golden_deviation", VFloat 0.1);
      ("face_aspect_ratio", VFloat 1.2);
      ("harmony_score", VFloat 82.0);
      ("evaluation", VStr "良好");
      ("beauty_level", VStr "高い");
      ("explanation", VStr "バランスの取れた美しい顔立ちです")].

(** [_calculate_overall_score] *)
Definition _calculate_overall_score (analysis_results : pydict) : result pydict :=
  let base_score := 78.5 in
  Ok [("score", VFloat base_score);
      ("level", VStr "🌸 容姿端麗な一般人レベル");
      ("tier", VStr "C級");
      ("description", VStr "街で振り返られる美人レベル");
      ("emoji", VStr "🌸");
      ("detailed_scores",
       VDict [("eline", VFloat 85.0);
              ("harmony", VFloat 78.0);
              ("symmetry", VFloat 82.0);
              ("proportions", VFloat 75.0)]);
      ("score_breakdown",
       VDict [("eline", VStr "85.0 (重み15%)");
              ("harmony", VStr "78.0 (重み25%)");
              ("symmetry", VStr "82.0 (重み6%)")]);
      ("severe_flaws", VList []);
      ("explanation_details",
       VDict [("strong_points",
               VList [VStr "良好なEライン"; VStr "バランスの取れた顔立ち"]);
              ("weak_points", VList []);
              ("bonus_factors", VList []);
              ("penalty_factors", VList []);
              ("improvement_suggestions",
               VList [VStr "メイク技術の向上で更なる美しさを"])]);
      ("note", VStr "韓国の美容整形基準と黄金比に基づく総合評価です。")].

Definition disclaimer : string :=
  "⚠️ 注意: このアドバイスは一般的な美容情報であり、医学的アドバイスではありません。".

(** [_generate_beauty_advice] *)
Definition _generate_beauty_advice (analysis_results : pydict)
  : result (list pyval) :=
  Ok [VStr "💋 理想的なEラインを持っています。横顔美人の証です。";
      VStr "✨ バランスの取れた美しい顔立ちです。";
      VStr "💄 メイク技術の向上で更なる美しさを引き出せます。";
      VStr "⚠️ 注意: このアドバイスは一般的な美容情報であり、医学的アドバイスではありません。"].

(** ** Result models ([models/analysis.py]) *)

(** The annotation of a model field.  [TFloat ge le] is a [float] with the
    optional bounds of its [Field]. *)
Inductive ftype : Type :=
| TStr
| TBool
| TFloat (ge le : option R)
| TDictStrFloat
| TDictStrStr
| TDictStrAny
| TListStr
| TOptionalStr.

Definition is_str (v : pyval) : bool :=
  match v with
  | VStr _ | VFmt _ => true
  | _ => false
  end.

(** A float field takes a float, or an int, which it converts. *)
Definition as_float (v : pyval) : option R :=
  match v with
  | VFloat r => Some r
  | VInt n => Some (IZR n)
  | _ => None
  end.

Definition in_bounds (ge le : option R) (r : R) : bool :=
  match ge with Some lo => fle lo r | None => true end
  && match le with Some hi => fle r hi | None => true end.

Fixpoint float_values (d : list (string * pyval))
  : option (list (string * pyval)) :=
  match d with
  | [] => Some []
  | (k, v) :: rest =>
      match as_float v, float_values rest with
      | Some r, Some rest' => Some ((k, VFloat r) :: rest')
      | _, _ => None
      end
  end.

(** Validation of one value against a field annotation; the validated
    value on success.  The analyzers put floats in float fields and strings
    in string fields, so the conversions of other kinds of value that
    validation would attempt are not modelled: such a value is rejected. *)
Definition validate_value (t : ftype) (v : pyval) : option pyval :=
  match t with
  | TStr => if is_str v then Some v else None
  | TBool => match v with VBool _ => Some v | _ => None end
  | TFloat ge le =>
      match as_float v with
      | Some r => if in_bounds ge le r then Some (VFloat r) else None
      | None => None
      end
  | TDictStrFloat =>
      match v with
      | VDict d => option_map VDict (float_values d)
      | _ => None
      end
  | TDictStrStr =>
      match v with
      | VDict d => if forallb (fun kv => is_str (snd kv)) d then Some v else None
      | _ => None
      end
  | TDictStrAny => match v with VDict _ => Some v | _ => None end
  | TListStr =>
      match v with
      | VList l => if forallb is_str l then Some v else None
      | _ => None
      end
  | TOptionalStr =>
      match v with
      | VNone => Some v
      | _ => if is_str v then Some v else None
      end
  end.

Definition schema : Type := list (string * ftype).

(** Construction of a model from keyword data: every field of the schema
    is required and validated, keys outside the schema are ignored. *)
Fixpoint validate_model (model : string) (fields : schema) (data : pydict)
  : result pydict :=
  match fields with
  | [] => Ok []
  | (k, t) :: rest =>
      match dict_get k data with
      | None => Raise (ValidationError model k)
      | Some v =>
          match validate_value t v with
          | None => Raise (ValidationError model k)
          | Some v' =>
              rest' <- validate_model model rest data ;;
              Ok ((k, v') :: rest')
          end
      end
  end.

Definition unbounded : ftype := TFloat None None.
Definition unit_interval : ftype := TFloat (Some 0) (Some 1).
Definition percent : ftype := TFloat (Some 0) (Some 100).

Definition FaceAngle : schema :=
  [("angle", TStr); ("ratio", unit_interval); ("confidence", unit_interval);
   ("suitable_for_analysis", TBool)].

Definition ElineAnalysis : schema :=
  [("status", TStr); ("upper_lip_distance", unbounded);
   ("lower_lip_distance", unbounded); ("evaluation", TStr)].

Definition FaceProportions : schema :=
  [("aspect_ratio", unbounded); ("closest_ratio", TStr);
   ("ideal_ratio", unbounded); ("difference", unbounded);
   ("evaluation", TStr)].

Definition PhiltrumChinRatio : schema :=
  [("philtrum_length", unbounded); ("chin_length", unbounded);
   ("ratio", unbounded); ("closest_ideal", TStr); ("target_ratio", unbounded);
   ("difference", unbounded); ("evaluation", TStr)].

Definition NasolabialAngle : schema :=
  [("angle", unbounded); ("ideal_range", TStr); ("status", TStr);
   ("evaluation", TStr)].

Definition VlineAnalysis : schema :=
  [("jaw_angle", unbounded); ("sharpness", TStr); ("evaluation", TStr);
   ("vline_score", percent)].

Definition SymmetryAnalysis : schema :=
  [("symmetry_score", percent); ("asymmetry_level", unbounded);
   ("evaluation", TStr)].

Definition DentalProtrusion : schema :=
  [("max_upper_protrusion", unbounded); ("max_lower_protrusion", unbounded);
   ("avg_upper_protrusion", unbounded); ("avg_lower_protrusion", unbounded);
   ("lip_status", TStr); ("dental_status", TStr); ("teeth_visible", TBool);
   ("severity", TStr); ("lip_balance", TStr); ("ideal_range", TStr);
   ("evaluation", TStr)].

Definition FaceContour : schema :=
  [("face_area", unbounded); ("face_perimeter", unbounded);
   ("face_width", unbounded); ("face_height", unbounded);
   ("small_face_score", percent); ("cheekbone_width", unbounded);
   ("jaw_width", unbounded); ("cheek_jaw_ratio", unbounded);
   ("vline_evaluation", TStr)].

Definition FacialHarmony : schema :=
  [("avg_eye_width", unbounded); ("nose_width", unbounded);
   ("mouth_width", unbounded); ("face_width", unbounded);
   ("face_height", unbounded); ("face_area", unbounded);
   ("eye_face_ratio", unbounded); ("nose_face_ratio", unbounded);
   ("mouth_face_ratio", unbounded); ("eye_area_ratio", unbounded);
   ("golden_deviation", unbounded); ("face_aspect_ratio", unbounded);
   ("harmony_score", percent); ("evaluation", TStr); ("beauty_level", TStr);
   ("explanation", TStr)].

Definition OverallScore : schema :=
  [("score", percent); ("level", TStr); ("tier", TStr); ("description", TStr);
   ("emoji", TStr); ("detailed_scores", TDictStrFloat);
   ("score_breakdown", TDictStrStr); ("severe_flaws", TListStr);
   ("explanation_details", TDictStrAny); ("note", TStr)].

(** [FaceAnalysisResult]: the root record. *)
Module FaceAnalysisResult.
Record t : Type := make {
    timestamp : Z;
    image_info : pydict;
    face_angle : pydict;
    face_contour : pydict;
    eline : pydict;
    proportions : pydict;
    philtrum_chin : pydict;
    nasolabial_angle : pydict;
    vline : pydict;
    symmetry : pydict;
    dental_protrusion : pydict;
    facial_harmony : pydict;
    overall_score : pydict;
    beauty_advice : list pyval;
    angle_warning : option pyval
  }.
End FaceAnalysisResult.

Definition validate_list_str (model field : string) (l : list pyval)
  : result (list pyval) :=
  if forallb is_str l then Ok l else Raise (ValidationError model field).

Definition validate_optional_str (model field : string) (v : option pyval)
  : result (option pyval) :=
  match v with
  | None => Ok None
  | Some s => if is_str s then Ok v else Raise (ValidationError model field)
  end.

(** The constructor call [FaceAnalysisResult(timestamp=..., ...)]. *)
Definition FaceAnalysisResult_init (timestamp : Z) (image_info : pydict)
    (face_angle face_contour eline proportions philtrum_chin nasolabial_angle
     vline symmetry dental_protrusion facial_harmony overall_score : pydict)
    (beauty_advice : list pyval) (angle_warning : option pyval)
  : result FaceAnalysisResult.t :=
  face_angle' <- validate_model "FaceAngle" FaceAngle face_angle ;;
  face_contour' <- validate_model "FaceContour" FaceContour face_contour ;;
  eline' <- validate_model "ElineAnalysis" ElineAnalysis eline ;;
  proportions' <- validate_model "FaceProportions" FaceProportions proportions ;;
  philtrum_chin' <-
    validate_model "PhiltrumChinRatio" PhiltrumChinRatio philtrum_chin ;;
  nasolabial_angle' <-
    validate_model "NasolabialAngle" NasolabialAngle nasolabial_angle ;;
  vline' <- validate_model "VlineAnalysis" VlineAnalysis vline ;;
  symmetry' <- validate_model "SymmetryAnalysis" SymmetryAnalysis symmetry ;;
  dental_protrusion' <-
    validate_model "DentalProtrusion" DentalProtrusion dental_protrusion ;;
  facial_harmony' <-
    validate_model "FacialHarmony" FacialHarmony facial_harmony ;;
  overall_score' <- validate_model "OverallScore" OverallScore overall_score ;;
  beauty_advice' <-
    validate_list_str "FaceAnalysisResult" "beauty_advice" beauty_advice ;;
  angle_warning' <-
    validate_optional_str "FaceAnalysisResult" "angle_warning" angle_warning ;;
  Ok (FaceAnalysisResult.make timestamp image_info face_angle' face_contour'
        eline' proportions' philtrum_chin' nasolabial_angle' vline' symmetry'
        dental_protrusion' facial_harmony' overall_score' beauty_advice'
        angle_warning').

(** ** The pipeline *)

(** [_perform_comprehensive_analysis]; [now] is the value that
    [datetime.now()] returns during the call. *)
Definition _perform_comprehensive_analysis (self : Analyzer.t)
    (landmarks : list Landmark) (image_shape : Z * Z) (filename : string)
    (now : Z)
  : result FaceAnalysisResult.t :=
  let '(h, w) := image_shape in
  try_except
    (face_angle <- _detect_face_angle self landmarks ;;
     face_contour <- _analyze_face_contour landmarks image_shape ;;
     eline <- _analyze_eline self landmarks image_shape ;;
     proportions <- _analyze_face_proportions self landmarks image_shape ;;
     philtrum_chin <- _analyze_philtrum_chin_ratio landmarks image_shape ;;
     nasolabial_angle <- _analyze_nasolabial_angle landmarks ;;
     vline <- _analyze_vline_curvature landmarks image_shape ;;
     symmetry <- _analyze_facial_symmetry landmarks image_shape ;;
     dental_protrusion <- _analyze_dental_protrusion landmarks image_shape ;;
     facial_harmony <- _analyze_facial_harmony landmarks image_shape ;;
     let analysis_results :=
       [("face_angle", VDict face_angle);
        ("face_contour", VDict face_contour);
        ("eline", VDict eline);
        ("proportions", VDict proportions);
        ("philtrum_chin", VDict philtrum_chin);
        ("nasolabial_angle", VDict nasolabial_angle);
        ("vline", VDict vline);
        ("symmetry", VDict symmetry);
        ("dental_protrusion", VDict dental_protrusion);
        ("facial_harmony", VDict facial_harmony)] in
     overall_score <- _calculate_overall_score analysis_results ;;
     beauty_advice <- _generate_beauty_advice analysis_results ;;
     let image_info :=
       [("filename", VStr filename);
        ("dimensions", VFmt [VInt w; VStr "x"; VInt h]);
        ("total_landmarks", VInt (Z.of_nat (List.length landmarks)))] in
     angle_warning <- _get_angle_warning face_angle ;;
     FaceAnalysisResult_init now image_info face_angle face_contour eline
       proportions philtrum_chin nasolabial_angle vline symmetry
       dental_protrusion facial_harmony overall_score beauty_advice
       angle_warning)
    (fun e => Raise (AnalysisError "comprehensive_analysis" e)).

(** ** The analyzers in rounded arithmetic

    The definitions above take every float operation as exact.  The module
    below repeats the measuring analyzers with the rounding of the source
    made explicit: [rnd] is the rounding of the float format (for the
    source, binary64 to nearest).  A float literal and a conversion from an
    integer denote the rounded value; addition, subtraction,
    multiplication, division and square root round their exact result;
    negation, absolute value, [max], [min] and comparisons are exact.
    [round(v, n)] rounds the exact value of the float [v] to [n] decimals
    and returns the float nearest to that decimal. *)
Module Rounded.
Section WithRounding.
Variable rnd : R -> R.

(** A float literal of the source. *)
Definition lit (c : R) : R := rnd c.

(** [float(n)] for an integer, as an operation on floats applies it. *)
Definition of_int (n : Z) : R := rnd (IZR n).

(** [a / b] on floats. *)
Definition py_div (a b : R) : result R :=
  if feq b 0 then Raise ZeroDivisionError else Ok (rnd (a / b)).

(** [round(v, ndigits)] *)
Definition py_round (v : R) (ndigits : nat) : R :=
  rnd (IZR (round_half_even (v * 10 ^ ndigits)) / 10 ^ ndigits).

(** [_calculate_distance] *)
Definition _calculate_distance (point1 point2 : Landmark) (image_shape : Z * Z)
  : R :=
  let x1 := py_int (rnd (x point1 * of_int (snd image_shape))) in
  let y1 := py_int (rnd (y point1 * of_int (fst image_shape))) in
  let x2 := py_int (rnd (x point2 * of_int (snd image_shape))) in
  let y2 := py_int (rnd (y point2 * of_int (fst image_shape))) in
  rnd (sqrt (of_int ((x2 - x1) ^ 2 + (y2 - y1) ^ 2))).

Definition vsub (u v : vec) : vec :=
  (rnd (fst u - fst v), rnd (snd u - snd v)).
Definition np_linalg_norm (v : vec) : R :=
  rnd (sqrt (rnd (rnd (fst v * fst v) + rnd (snd v * snd v)))).
Definition np_cross (u v : vec) : R :=
  rnd (rnd (fst u * snd v) - rnd (snd u * fst v)).

(** [_point_to_line_distance] *)
Definition _point_to_line_distance (point line_point1 line_point2 : Landmark)
  : result R :=
  let p := np_array point in
  let a := np_array line_point1 in
  let b := np_array line_point2 in
  if feq (np_linalg_norm (vsub b a)) 0 then
    Ok (np_linalg_norm (vsub p a))
  else
    py_div (Rabs (np_cross (vsub b a) (vsub p a))) (np_linalg_norm (vsub b a)).

(** [_detect_face_angle] *)
Definition _detect_face_angle (self : Analyzer.t) (landmarks : list Landmark)
  : result pydict :=
  nose_tip <- getitem landmarks (LandmarkTable.nose_tip (idx self)) ;;
  left_cheek <- getitem landmarks (LandmarkTable.left_cheek (idx self)) ;;
  right_cheek <- getitem landmarks (LandmarkTable.right_cheek (idx self)) ;;
  let left_dist := Rabs (rnd (x nose_tip - x left_cheek)) in
  let right_dist := Rabs (rnd (x nose_tip - x right_cheek)) in
  if feq left_dist 0 && feq right_dist 0 then
    Ok [("angle", VStr "unknown"); ("confidence", VFloat (lit 0.0));
        ("suitable_for_analysis", VBool false)]
  else
    ratio <- (if flt 0 (rnd (left_dist + right_dist))
              then py_div left_dist (rnd (left_dist + right_dist))
              else Ok (lit 0.5)) ;;
    let '(angle_type, confidence) :=
      if fle (lit 0.4) ratio && fle ratio (lit 0.6) then
        ("正面",
         rnd (lit 1.0 - rnd (Rabs (rnd (ratio - lit 0.5)) * of_int 2)))
      else if flt ratio (lit 0.3) then ("右向き", lit 0.7)
      else if flt (lit 0.7) ratio then ("左向き", lit 0.7)
      else ("斜め", lit 0.5) in
    Ok [("angle", VStr angle_type);
        ("ratio", VFloat (py_round ratio 3));
        ("confidence", VFloat (py_round confidence 2));
        ("suitable_for_analysis", VBool (flt (lit 0.6) confidence))].

(** [_analyze_eline] *)
Definition _analyze_eline (self : Analyzer.t) (landmarks : list Landmark)
    (image_shape : Z * Z) : result pydict :=
  nose_tip <- getitem landmarks (LandmarkTable.nose_tip (idx self)) ;;
  chin_tip <- getitem landmarks (LandmarkTable.chin_tip (idx self)) ;;
  upper_lip <- getitem landmarks (LandmarkTable.upper_lip_center (idx self)) ;;
  lower_lip <- getitem landmarks (LandmarkTable.lower_lip_center (idx self)) ;;
  left_cheek <- getitem landmarks (LandmarkTable.left_cheek (idx self)) ;;
  right_cheek <- getitem landmarks (LandmarkTable.right_cheek (idx self)) ;;
  let face_width := _calculate_distance left_cheek right_cheek image_shape in
  upper_d <- _point_to_line_distance upper_lip nose_tip chin_tip ;;
  let upper_lip_dist := rnd (upper_d * face_width) in
  lower_d <- _point_to_line_distance lower_lip nose_tip chin_tip ;;
  let lower_lip_dist := rnd (lower_d * face_width) in
  let max_dist := py_max (Rabs upper_lip_dist) (Rabs lower_lip_dist) in
  let status :=
    if fle max_dist (lit 2.0) then "理想的"
    else if fle max_dist (lit (BeautyStandards.eline_tolerance (std self)))
         then "良好"
    else if fle max_dist (lit 7.0) then "標準的"
    else if flt lower_lip_dist upper_lip_dist then "上唇がやや前方"
         else "下唇がやや前方" in
  let evaluation :=
    if fle max_dist (lit (BeautyStandards.eline_tolerance (std self)))
    then "良好"
    else "標準的" in
  Ok [("status", VStr status);
      ("upper_lip_distance", VFloat (py_round upper_lip_dist 2));
      ("lower_lip_distance", VFloat (py_round lower_lip_dist 2));
      ("evaluation", VStr evaluation)].

(** [_analyze_face_proportions] *)
Definition _analyze_face_proportions (self : Analyzer.t)
    (landmarks : list Landmark) (image_shape : Z * Z) : result pydict :=
  forehead_center <-
    getitem landmarks (LandmarkTable.forehead_center (idx self)) ;;
  chin_tip <- getitem landmarks (LandmarkTable.chin_tip (idx self)) ;;
  let face_height := _calculate_distance forehead_center chin_tip image_shape in
  left_cheek <- getitem landmarks (LandmarkTable.left_cheek (idx self)) ;;
  right_cheek <- getitem landmarks (LandmarkTable.right_cheek (idx self)) ;;
  let face_width := _calculate_distance left_cheek right_cheek image_shape in
  if feq face_width 0 then
    Ok [("error", VStr "顔の幅を測定できませんでした")]
  else
    aspect_ratio <- py_div face_height face_width ;;
    let golden_diff :=
      Rabs (rnd (aspect_ratio
                 - lit (BeautyStandards.golden_ratio (std self)))) in
    let silver_diff :=
      Rabs (rnd (aspect_ratio
                 - lit (BeautyStandards.silver_ratio (std self)))) in
    let japanese_diff :=
      Rabs (rnd (aspect_ratio
                 - lit (BeautyStandards.japanese_face_ratio (std self)))) in
    let min_diff := py_min3 golden_diff silver_diff japanese_diff in
    let '(closest_ratio, ideal_ratio) :=
      if feq min_diff golden_diff then
        ("黄金比", lit (BeautyStandards.golden_ratio (std self)))
      else if feq min_diff silver_diff then
        ("白銀比（大和比）", lit (BeautyStandards.silver_ratio (std self)))
      else ("日本人理想比",
            lit (BeautyStandards.japanese_face_ratio (std self))) in
    let evaluation :=
      if flt min_diff (lit 0.15) then "優秀"
      else if flt min_diff (lit 0.25) then "良好"
      else if flt min_diff (lit 0.35) then "標準的"
      else "個性的" in
    Ok [("aspect_ratio", VFloat (py_round aspect_ratio 3));
        ("closest_ratio", VStr closest_ratio);
        ("ideal_ratio", VFloat ideal_ratio);
        ("difference", VFloat (py_round min_diff 3));
        ("evaluation", VStr evaluation)].
End WithRounding.
End Rounded.

(** Exact arithmetic is the case where nothing is rounded. *)
Definition exact (v : R) : R := v.

(** ** Notions used to state the properties *)

(** Euclidean distance between two landmarks in normalized coordinates. *)
Definition euclidean_distance (p a : Landmark) : R :=
  sqrt ((x p - x a) ^ 2 + (y p - y a) ^ 2).

(** The result record with its timestamp replaced. *)
Definition set_timestamp (ts : Z) (r : FaceAnalysisResult.t)
  : FaceAnalysisResult.t :=
  FaceAnalysisResult.make ts
    (FaceAnalysisResult.image_info r) (FaceAnalysisResult.face_angle r)
    (FaceAnalysisResult.face_contour r) (FaceAnalysisResult.eline r)
    (FaceAnalysisResult.proportions r) (FaceAnalysisResult.philtrum_chin r)
    (FaceAnalysisResult.nasolabial_angle r) (FaceAnalysisResult.vline r)
    (FaceAnalysisResult.symmetry r) (FaceAnalysisResult.dental_protrusion r)
    (FaceAnalysisResult.facial_harmony r) (FaceAnalysisResult.overall_score r)
    (FaceAnalysisResult.beauty_advice r) (FaceAnalysisResult.angle_warning r).

Definition result_map {A B : Type} (f : A -> B) (m : result A) : result B :=
  match m with
  | Ok a => Ok (f a)
  | Raise e => Raise e
  end.

(** The sub-dictionary stored under a key. *)
Definition sub_dict (k : string) (d : pydict) : pydict :=
  match dict_get k d with
  | Some (VDict d') => d'
  | _ => []
  end.








(** A landmark sequence of [n] points given by position. *)
Definition landmarks_from (f : nat -> Landmark) (n : nat) : list Landmark :=
  map f (seq 0 n).

(** The positions that the computed analyses read hold these points. *)
Record reads (self : Analyzer.t) (landmarks : list Landmark)
    (nose chin forehead upper lower lcheek rcheek : Landmark) : Prop := {
  reads_nose :
    nth_error landmarks (LandmarkTable.nose_tip (idx self)) = Some nose;
  reads_chin :
    nth_error landmarks (LandmarkTable.chin_tip (idx self)) = Some chin;
  reads_forehead :
    nth_error landmarks (LandmarkTable.forehead_center (idx self))
    = Some forehead;
  reads_upper :
    nth_error landmarks (LandmarkTable.upper_lip_center (idx self))
    = Some upper;
  reads_lower :
    nth_error landmarks (LandmarkTable.lower_lip_center (idx self))
    = Some lower;
  reads_lcheek :
    nth_error landmarks (LandmarkTable.left_cheek (idx self)) = Some lcheek;
  reads_rcheek :
    nth_error landmarks (LandmarkTable.right_cheek (idx self)) = Some rcheek
}.

(** A face placed at known coordinates: every position holds the centre
    point except the seven that the analyses read. *)
Definition face (nose chin forehead upper lower lcheek rcheek : Landmark)
  : list Landmark :=
  landmarks_from
    (fun i =>
       if Nat.eqb i 1 then nose
       else if Nat.eqb i 152 then chin
       else if Nat.eqb i 10 then forehead
       else if Nat.eqb i 13 then upper
       else if Nat.eqb i 14 then lower
       else if Nat.eqb i 234 then lcheek
       else if Nat.eqb i 454 then rcheek
       else mkLandmark 0.5 0.5)
    478.

(** A producer of a record conforms to a model when it returns a record
    that the model accepts unchanged. *)
Definition conforms (model : string) (fields : schema) (m : result pydict)
  : Prop :=
  exists d, m = Ok d /\ validate_model model fields d = Ok d.


Definition centre : Landmark := mkLandmark 0.5 0.5.


(** A face seen from the front, symmetric about the vertical line through
    the nose tip, with both lips on the line from nose tip to chin tip. *)
Definition face_symmetric : list Landmark :=
  face (mkLandmark 0.5 0.5) (mkLandmark 0.5 0.9) (mkLandmark 0.5 0.1)
       (mkLandmark 0.5 0.65) (mkLandmark 0.5 0.7)
       (mkLandmark 0.25 0.5) (mkLandmark 0.75 0.5).

(** A face whose cheeks fall on the same pixel of an image 100 wide. *)
Definition face_narrow : list Landmark :=
  face (mkLandmark 0.3 0.5) (mkLandmark 0.5 0.9) (mkLandmark 0.5 0.1)
       (mkLandmark 0.5 0.65) (mkLandmark 0.5 0.7)
       (mkLandmark 0.501 0.5) (mkLandmark 0.509 0.5).

Definition shape_100 : Z * Z := (100%Z, 100%Z).

(** The reading of zero-width recovery in which the call returns a result
    that carries the error marker and leaves the sub-analysis out of the
    detailed scores. *)
Definition zero_width_recovered (self : Analyzer.t)
    (landmarks : list Landmark) (image_shape : Z * Z) (filename : string)
    (now : Z) : Prop :=
  exists res,
    _perform_comprehensive_analysis self landmarks image_shape filename now
    = Ok res
    /\ dict_get "error" (FaceAnalysisResult.proportions res) <> None
    /\ dict_get "proportions"
         (sub_dict "detailed_scores" (FaceAnalysisResult.overall_score res))
       = None.

(** Repeated calls return identical outcomes, whenever they are made. *)
Definition repeatable (self : Analyzer.t) (landmarks : list Landmark)
    (image_shape : Z * Z) (filename : string) : Prop :=
  forall t1 t2,
    _perform_comprehensive_analysis self landmarks image_shape filename t1
    = _perform_comprehensive_analysis self landmarks image_shape filename t2.

(** The face-angle record of a perfectly frontal face. *)
Definition frontal_record : pydict :=
  [("angle", VStr label_frontal); ("ratio", VFloat 0.5);
   ("confidence", VFloat 1.0); ("suitable_for_analysis", VBool true)].

(** A face turned a little: the nose tip is at 35% of the way from the
    left cheek to the right cheek. *)
Definition face_oblique : list Landmark :=
  face (mkLandmark 0.35 0.5) (mkLandmark 0.5 0.9) (mkLandmark 0.5 0.1)
       (mkLandmark 0.5 0.65) (mkLandmark 0.5 0.7)
       (mkLandmark 0 0.5) (mkLandmark 1 0.5).

(** ** Consumers of the analysis records *)

(** [sub in s] on strings. *)
Fixpoint contains (sub s : string) : bool :=
  String.prefix sub s
  || match s with
     | EmptyString => false
     | String _ rest => contains sub rest
     end.

(** [s.lower()].  Only the letters A to Z are changed; a cased letter
    outside ASCII is left as it is. *)
Definition lower_char (c : ascii) : ascii :=
  let n := nat_of_ascii c in
  if ((65 <=? n) && (n <=? 90))%nat then ascii_of_nat (n + 32) else c.

Fixpoint py_lower (s : string) : string :=
  match s with
  | EmptyString => EmptyString
  | String c rest => String (lower_char c) (py_lower rest)
  end.

(** [float(v)] on a number; [None] when the call raises.  The parsing of
    a string that spells a number is not modelled and is [None] too. *)
Definition py_float (v : pyval) : option R :=
  match v with
  | VFloat r => Some r
  | VInt n => Some (IZR n)
  | VBool b => Some (if b then 1 else 0)
  | _ => None
  end.

(** [LineBotService._extract_score] ([services/linebot_service.py]); [None]
    when the call raises. *)
Definition _extract_score (data : pydict) : option R :=
  match dict_get "score" data with
  | Some v => py_float v
  | None =>
      match dict_get "evaluation" data with
      | Some v =>
          match v with
          | VStr s =>
              let evaluation := py_lower s in
              if contains "理想" evaluation || contains "優秀" evaluation
              then Some 90.0
              else if contains "良好" evaluation then Some 80.0
              else if contains "標準" evaluation then Some 70.0
              else Some 60.0
          | _ => None
          end
      | None => Some 70.0
      end
  end.

(** The colours of [ReportGenerator] ([core/report_generator.py]) that
    [_get_evaluation_color] returns. *)
Definition color_success : string := "#22c55e".
Definition color_warning : string := "#f59e0b".
Definition color_danger : string := "#ef4444".

(** The keyword lists of [_get_evaluation_color], as the source file
    spells them. *)
Definition positive_words : list string :=
  ["ç†æƒ³çš„"; "å„ªç§€"; "è‰¯å¥½"; "éžå¸¸ã«"; "å®Œç’§"].
Definition warning_words : list string :=
  ["æ¨™æº–çš„"; "ã‚„ã‚„"; "æ™®é€š"].

(** [ReportGenerator._get_evaluation_color] *)
Definition _get_evaluation_color (evaluation : string) : string :=
  if existsb (fun word => contains word evaluation) positive_words then
    color_success
  else if existsb (fun word => contains word evaluation) warning_words then
    color_warning
  else color_danger.

(** The colour in which the feature section of the report shows the
    evaluation of a record. *)
Definition evaluation_color (record : pydict) : option string :=
  match dict_get "evaluation" record with
  | Some (VStr evaluation) => Some (_get_evaluation_color evaluation)
  | _ => None
  end.

(** ** Facts about the runtime fragments *)

Lemma fle_true (a b : R) : a <= b -> fle a b = true.
Proof. intros H. unfold fle. destruct (Rle_dec a b); [reflexivity | contradiction]. Qed.

Lemma fle_false (a b : R) : b < a -> fle a b = false.
Proof. intros H. unfold fle. destruct (Rle_dec a b); [lra | reflexivity]. Qed.

Lemma flt_true (a b : R) : a < b -> flt a b = true.
Proof. intros H. unfold flt. destruct (Rlt_dec a b); [reflexivity | contradiction]. Qed.

Lemma flt_false (a b : R) : b <= a -> flt a b = false.
Proof. intros H. unfold flt. destruct (Rlt_dec a b); [lra | reflexivity]. Qed.

Lemma feq_true (a b : R) : a = b -> feq a b = true.
Proof. intros H. unfold feq. destruct (Req_dec_T a b); [reflexivity | contradiction]. Qed.

Lemma feq_false (a b : R) : a <> b -> feq a b = false.
Proof. intros H. unfold feq. destruct (Req_dec_T a b); [contradiction | reflexivity]. Qed.

Lemma fle_spec (a b : R) : fle a b = true <-> a <= b.
Proof.
  unfold fle. destruct (Rle_dec a b); split; intros; try reflexivity;
    try assumption; try discriminate; contradiction.
Qed.


Lemma feq_spec (a b : R) : feq a b = true <-> a = b.
Proof.
  unfold feq. destruct (Req_dec_T a b); split; intros; try reflexivity;
    try assumption; try discriminate; contradiction.
Qed.

(** Decide every float comparison in the goal by linear arithmetic, using
    the hypotheses. *)
Ltac fcases :=
  repeat match goal with
    | |- context [fle ?a ?b] =>
        first [ rewrite (fle_true a b) by lra | rewrite (fle_false a b) by lra ]
    | |- context [flt ?a ?b] =>
        first [ rewrite (flt_true a b) by lra | rewrite (flt_false a b) by lra ]
    | |- context [feq ?a ?b] =>
        first [ rewrite (feq_true a b) by lra | rewrite (feq_false a b) by lra ]
    end.




(** ** Geometry *)

Lemma np_linalg_norm_nonneg (v : vec) : 0 <= np_linalg_norm v.
Proof. unfold np_linalg_norm. apply sqrt_pos. Qed.

Lemma np_linalg_norm_zero (v : vec) :
  np_linalg_norm v = 0 <-> fst v = 0 /\ snd v = 0.
Proof.
  unfold np_linalg_norm. split.
  - intros H. apply sqrt_eq_0 in H; [| nra]. split; nra.
  - intros [-> ->]. replace (0 * 0 + 0 * 0) with 0 by ring. apply sqrt_0.
Qed.

Lemma np_linalg_norm_euclid (p a : Landmark) :
  np_linalg_norm (vsub (np_array p) (np_array a)) = euclidean_distance p a.
Proof.
  unfold np_linalg_norm, euclidean_distance, vsub, np_array. simpl.
  f_equal. ring.
Qed.

Lemma point_to_line_degenerate (p a : Landmark) :
  _point_to_line_distance p a a = Ok (euclidean_distance p a).
Proof.
  unfold _point_to_line_distance.
  rewrite feq_true.
  - now rewrite np_linalg_norm_euclid.
  - apply np_linalg_norm_zero. unfold vsub, np_array. simpl. split; ring.
Qed.

Lemma point_to_line_proper (p a b : Landmark) :
  a <> b ->
  _point_to_line_distance p a b
  = Ok (Rabs ((x b - x a) * (y p - y a) - (y b - y a) * (x p - x a))
        / sqrt ((x b - x a) ^ 2 + (y b - y a) ^ 2)).
Proof.
  intros Hab.
  assert (Hn : np_linalg_norm (vsub (np_array b) (np_array a)) <> 0).
  { intros H. apply np_linalg_norm_zero in H. unfold vsub, np_array in H.
    simpl in H. destruct H as [Hx Hy]. apply Hab.
    destruct a as [ax ay], b as [bx by']. simpl in *. f_equal; lra. }
  unfold _point_to_line_distance, py_div.
  rewrite !(feq_false _ 0) by exact Hn.
  rewrite np_linalg_norm_euclid.
  unfold np_cross, vsub, np_array, euclidean_distance. simpl.
  reflexivity.
Qed.

Lemma point_to_line_total (p a b : Landmark) :
  exists d, _point_to_line_distance p a b = Ok d /\ 0 <= d.
Proof.
  unfold _point_to_line_distance, py_div.
  destruct (feq (np_linalg_norm (vsub (np_array b) (np_array a))) 0) eqn:E.
  - eexists. split; [reflexivity | apply np_linalg_norm_nonneg].
  - eexists. split; [reflexivity |].
    assert (Hn : np_linalg_norm (vsub (np_array b) (np_array a)) <> 0).
    { intros H. apply feq_spec in H. congruence. }
    pose proof (np_linalg_norm_nonneg (vsub (np_array b) (np_array a))).
    apply Rmult_le_pos; [apply Rabs_pos |].
    apply Rlt_le, Rinv_0_lt_compat. lra.
Qed.

(** ** Rounding *)

Lemma Int_part_IZR (z : Z) : Int_part (IZR z) = z.
Proof. symmetry. apply Int_part_spec. lra. Qed.

Lemma round_half_even_low (v : R) (z : Z) :
  IZR z <= v < IZR z + 1 / 2 -> round_half_even v = z.
Proof.
  intros H. unfold round_half_even.
  assert (E : Int_part v = z) by (symmetry; apply Int_part_spec; lra).
  rewrite E. now rewrite flt_true by lra.
Qed.

Lemma round_half_even_high (v : R) (z : Z) :
  IZR z + 1 / 2 < v < IZR z + 1 -> round_half_even v = (z + 1)%Z.
Proof.
  intros H. unfold round_half_even.
  assert (E : Int_part v = z) by (symmetry; apply Int_part_spec; lra).
  rewrite E. rewrite flt_false by lra. now rewrite flt_true by lra.
Qed.

Lemma round_half_even_IZR (z : Z) : round_half_even (IZR z) = z.
Proof. apply round_half_even_low. lra. Qed.

Lemma round_half_even_bounds (v : R) (n : Z) :
  0 <= v <= IZR n -> (0 <= round_half_even v <= n)%Z.
Proof.
  intros [H0 Hn]. unfold round_half_even.
  destruct (base_Int_part v) as [Hlo Hhi].
  set (f := Int_part v) in *.
  assert (Hf0 : (0 <= f)%Z).
  { assert (IZR (-1) < IZR f) by lra. apply lt_IZR in H. lia. }
  assert (Hfn : (f <= n)%Z) by (apply le_IZR; lra).
  destruct (flt (v - IZR f) (1 / 2)) eqn:E1; [lia |].
  assert (Hd : 1 / 2 <= v - IZR f).
  { destruct (Rle_dec (1 / 2) (v - IZR f)) as [Hle | Hnle]; [exact Hle |].
    rewrite flt_true in E1 by lra. discriminate. }
  assert (Hlt : (f < n)%Z) by (apply lt_IZR; lra).
  destruct (flt (1 / 2) (v - IZR f)); [lia |].
  destruct (Z.even f); lia.
Qed.

Lemma pow10_IZR (n : nat) : 10 ^ n = IZR (10 ^ Z.of_nat n).
Proof. now rewrite <- pow_IZR. Qed.

Lemma pow10_pos (n : nat) : 0 < 10 ^ n.
Proof. apply pow_lt. lra. Qed.

Lemma py_round_unit (v : R) (n : nat) :
  0 <= v <= 1 -> 0 <= py_round v n <= 1.
Proof.
  intros [H0 H1]. unfold py_round.
  pose proof (pow10_pos n) as Hp.
  assert (Hb : 0 <= v * 10 ^ n <= IZR (10 ^ Z.of_nat n)).
  { rewrite <- pow10_IZR. split; nra. }
  apply round_half_even_bounds in Hb. destruct Hb as [Hb0 Hb1].
  apply IZR_le in Hb0, Hb1. rewrite <- pow10_IZR in Hb1.
  split.
  - apply Rmult_le_pos; [exact Hb0 | apply Rlt_le, Rinv_0_lt_compat, Hp].
  - apply Rmult_le_reg_r with (r := 10 ^ n); [exact Hp |].
    unfold Rdiv. rewrite Rmult_assoc, Rinv_l by lra. lra.
Qed.

Lemma py_round_exact (v : R) (n : nat) (z : Z) :
  v * 10 ^ n = IZR z -> py_round v n = v.
Proof.
  intros H. unfold py_round. rewrite H, round_half_even_IZR, <- H.
  pose proof (pow10_pos n). field. lra.
Qed.

Lemma py_round_07 : py_round 0.7 2 = 0.7.
Proof. apply py_round_exact with (z := 70%Z). simpl. lra. Qed.

Lemma py_round_05 : py_round 0.5 2 = 0.5.
Proof. apply py_round_exact with (z := 50%Z). simpl. lra. Qed.

(** ** Face angle *)

Section FaceAngle.
Variable self : Analyzer.t.
Variable landmarks : list Landmark.
Variables nose lcheek rcheek : Landmark.
Hypothesis Hnose :
  nth_error landmarks (LandmarkTable.nose_tip (idx self)) = Some nose.
Hypothesis Hlcheek :
  nth_error landmarks (LandmarkTable.left_cheek (idx self)) = Some lcheek.
Hypothesis Hrcheek :
  nth_error landmarks (LandmarkTable.right_cheek (idx self)) = Some rcheek.

Let left_dist : R := Rabs (x nose - x lcheek).
Let right_dist : R := Rabs (x nose - x rcheek).
Let ratio : R := left_dist / (left_dist + right_dist).

Lemma detect_face_angle_unknown :
  left_dist = 0 -> right_dist = 0 ->
  _detect_face_angle self landmarks
  = Ok [("angle", VStr label_unknown); ("confidence", VFloat 0);
        ("suitable_for_analysis", VBool false)].
Proof.
  intros Hl Hr. unfold _detect_face_angle, getitem.
  rewrite Hnose, Hlcheek, Hrcheek. cbn [bind].
  fold left_dist right_dist. rewrite Hl, Hr.
  rewrite feq_true by reflexivity. cbn [andb].
  repeat f_equal. lra.
Qed.

(** With a nonzero distance the guard passes and the ratio is computed. *)
Lemma detect_face_angle_ratio :
  ~ (left_dist = 0 /\ right_dist = 0) ->
  _detect_face_angle self landmarks
  = (let '(angle_type, confidence) :=
       if fle 0.4 ratio && fle ratio 0.6 then
         ("正面", 1.0 - Rabs (ratio - 0.5) * 2)
       else if flt ratio 0.3 then ("右向き", 0.7)
       else if flt 0.7 ratio then ("左向き", 0.7)
       else ("斜め", 0.5) in
     Ok [("angle", VStr angle_type);
         ("ratio", VFloat (py_round ratio 3));
         ("confidence", VFloat (py_round confidence 2));
         ("suitable_for_analysis", VBool (flt 0.6 confidence))]).
Proof.
  intros Hnz. unfold _detect_face_angle, getitem.
  rewrite Hnose, Hlcheek, Hrcheek. cbn [bind].
  fold left_dist right_dist.
  pose proof (Rabs_pos (x nose - x lcheek)) as Hl0.
  pose proof (Rabs_pos (x nose - x rcheek)) as Hr0.
  fold left_dist in Hl0. fold right_dist in Hr0.
  assert (Hsum : 0 < left_dist + right_dist).
  { destruct (Req_dec_T left_dist 0); destruct (Req_dec_T right_dist 0);
      first [lra | exfalso; apply Hnz; split; assumption]. }
  assert (Hguard : feq left_dist 0 && feq right_dist 0 = false).
  { destruct (Req_dec_T left_dist 0) as [E | E].
    - rewrite (feq_false right_dist 0) by lra. apply andb_false_r.
    - now rewrite (feq_false left_dist 0) by exact E. }
  rewrite Hguard, flt_true by exact Hsum.
  unfold py_div. rewrite feq_false by lra. cbn [bind].
  fold ratio. reflexivity.
Qed.

Lemma ratio_unit : ~ (left_dist = 0 /\ right_dist = 0) -> 0 <= ratio <= 1.
Proof.
  intros Hnz.
  pose proof (Rabs_pos (x nose - x lcheek)) as Hl0.
  pose proof (Rabs_pos (x nose - x rcheek)) as Hr0.
  fold left_dist in Hl0. fold right_dist in Hr0.
  assert (Hsum : 0 < left_dist + right_dist).
  { destruct (Req_dec_T left_dist 0); destruct (Req_dec_T right_dist 0);
      first [lra | exfalso; apply Hnz; split; assumption]. }
  unfold ratio. split.
  - apply Rmult_le_pos; [exact Hl0 | apply Rlt_le, Rinv_0_lt_compat, Hsum].
  - apply Rmult_le_reg_r with (r := left_dist + right_dist); [exact Hsum |].
    unfold Rdiv. rewrite Rmult_assoc, Rinv_l by lra. lra.
Qed.

Lemma detect_face_angle_frontal :
  ~ (left_dist = 0 /\ right_dist = 0) ->
  0.4 <= ratio <= 0.6 ->
  _detect_face_angle self landmarks
  = Ok [("angle", VStr label_frontal);
        ("ratio", VFloat (py_round ratio 3));
        ("confidence", VFloat (py_round (1 - Rabs (ratio - 0.5) * 2) 2));
        ("suitable_for_analysis", VBool true)].
Proof.
  intros Hnz Hr. rewrite detect_face_angle_ratio by exact Hnz.
  rewrite !fle_true by lra. cbn [andb].
  assert (Hc : 0.6 < 1.0 - Rabs (ratio - 0.5) * 2).
  { unfold Rabs. destruct (Rcase_abs (ratio - 0.5)); lra. }
  rewrite flt_true by exact Hc.
  repeat f_equal. lra.
Qed.

Lemma detect_face_angle_facing_right :
  ~ (left_dist = 0 /\ right_dist = 0) ->
  ratio < 0.3 ->
  _detect_face_angle self landmarks
  = Ok [("angle", VStr label_facing_right);
        ("ratio", VFloat (py_round ratio 3));
        ("confidence", VFloat 0.7);
        ("suitable_for_analysis", VBool true)].
Proof.
  intros Hnz Hr. rewrite detect_face_angle_ratio by exact Hnz.
  rewrite (fle_false 0.4 ratio) by lra. cbn [andb].
  rewrite (flt_true ratio 0.3) by lra.
  rewrite flt_true by lra. now rewrite py_round_07.
Qed.

Lemma detect_face_angle_facing_left :
  ~ (left_dist = 0 /\ right_dist = 0) ->
  0.7 < ratio ->
  _detect_face_angle self landmarks
  = Ok [("angle", VStr label_facing_left);
        ("ratio", VFloat (py_round ratio 3));
        ("confidence", VFloat 0.7);
        ("suitable_for_analysis", VBool true)].
Proof.
  intros Hnz Hr. rewrite detect_face_angle_ratio by exact Hnz.
  rewrite (fle_true 0.4 ratio), (fle_false ratio 0.6) by lra. cbn [andb].
  rewrite (flt_false ratio 0.3), (flt_true 0.7 ratio) by lra.
  rewrite flt_true by lra. now rewrite py_round_07.
Qed.

Lemma detect_face_angle_oblique :
  ~ (left_dist = 0 /\ right_dist = 0) ->
  0.3 <= ratio < 0.4 \/ 0.6 < ratio <= 0.7 ->
  _detect_face_angle self landmarks
  = Ok [("angle", VStr label_oblique);
        ("ratio", VFloat (py_round ratio 3));
        ("confidence", VFloat 0.5);
        ("suitable_for_analysis", VBool false)].
Proof.
  intros Hnz Hr. rewrite detect_face_angle_ratio by exact Hnz.
  assert (Hg : fle 0.4 ratio && fle ratio 0.6 = false).
  { destruct Hr as [Hr | Hr].
    - now rewrite (fle_false 0.4 ratio) by lra.
    - rewrite (fle_false ratio 0.6) by lra. apply andb_false_r. }
  rewrite Hg, (flt_false ratio 0.3), (flt_false 0.7 ratio) by lra.
  rewrite flt_false by lra. now rewrite py_round_05.
Qed.
End FaceAngle.

(** ** E-line and proportions *)


Section Measurements.
Variable self : Analyzer.t.
Variable landmarks : list Landmark.
Variable image_shape : (Z * Z)%type.
Variables nose chin forehead upper lower lcheek rcheek : Landmark.
Hypothesis Hreads :
  reads self landmarks nose chin forehead upper lower lcheek rcheek.

Let face_width : R := _calculate_distance lcheek rcheek image_shape.
Let face_height : R := _calculate_distance forehead chin image_shape.

(** The E-line analysis never raises; its record is determined by the two
    lip distances. *)
Lemma analyze_eline_unfold :
  exists upper_d lower_d,
    _point_to_line_distance upper nose chin = Ok upper_d
    /\ _point_to_line_distance lower nose chin = Ok lower_d
    /\ 0 <= upper_d /\ 0 <= lower_d
    /\ _analyze_eline self landmarks image_shape
       = (let upper_lip_dist := upper_d * face_width in
          let lower_lip_dist := lower_d * face_width in
          let max_dist := py_max (Rabs upper_lip_dist) (Rabs lower_lip_dist) in
          Ok [("status",
               VStr (if fle max_dist 2.0 then "理想的"
                     else if fle max_dist
                               (BeautyStandards.eline_tolerance (std self))
                          then "良好"
                     else if fle max_dist 7.0 then "標準的"
                     else if flt lower_lip_dist upper_lip_dist
                          then "上唇がやや前方"
                          else "下唇がやや前方"));
              ("upper_lip_distance", VFloat (py_round upper_lip_dist 2));
              ("lower_lip_distance", VFloat (py_round lower_lip_dist 2));
              ("evaluation",
               VStr (if fle max_dist
                          (BeautyStandards.eline_tolerance (std self))
                     then "良好" else "標準的"))]).
Proof.
  destruct Hreads as [Hn Hc Hf Hu Hl Hlc Hrc].
  destruct (point_to_line_total upper nose chin) as [du [Edu Hdu]].
  destruct (point_to_line_total lower nose chin) as [dl [Edl Hdl]].
  exists du, dl. repeat split; try assumption.
  unfold _analyze_eline, getitem.
  rewrite Hn, Hc, Hu, Hl, Hlc, Hrc. cbn [bind].
  rewrite Edu. cbn [bind]. rewrite Edl. cbn [bind].
  reflexivity.
Qed.

Lemma calculate_distance_nonneg (p q : Landmark) :
  0 <= _calculate_distance p q image_shape.
Proof. unfold _calculate_distance. apply sqrt_pos. Qed.

Lemma analyze_face_proportions_error :
  face_width = 0 ->
  _analyze_face_proportions self landmarks image_shape
  = Ok [("error", VStr proportions_error_message)].
Proof.
  intros Hw. destruct Hreads as [Hn Hc Hf Hu Hl Hlc Hrc].
  unfold _analyze_face_proportions, getitem.
  rewrite Hf, Hc, Hlc, Hrc. cbn [bind].
  fold face_width. now rewrite feq_true by exact Hw.
Qed.

Lemma analyze_face_proportions_unfold :
  face_width <> 0 ->
  _analyze_face_proportions self landmarks image_shape
  = (let aspect_ratio := face_height / face_width in
     let golden_diff :=
       Rabs (aspect_ratio - BeautyStandards.golden_ratio (std self)) in
     let silver_diff :=
       Rabs (aspect_ratio - BeautyStandards.silver_ratio (std self)) in
     let japanese_diff :=
       Rabs (aspect_ratio - BeautyStandards.japanese_face_ratio (std self)) in
     let min_diff := py_min3 golden_diff silver_diff japanese_diff in
     Ok [("aspect_ratio", VFloat (py_round aspect_ratio 3));
         ("closest_ratio",
          VStr (if feq min_diff golden_diff then "黄金比"
                else if feq min_diff silver_diff then "白銀比（大和比）"
                else "日本人理想比"));
         ("ideal_ratio",
          VFloat (if feq min_diff golden_diff
                  then BeautyStandards.golden_ratio (std self)
                  else if feq min_diff silver_diff
                       then BeautyStandards.silver_ratio (std self)
                       else BeautyStandards.japanese_face_ratio (std self)));
         ("difference", VFloat (py_round min_diff 3));
         ("evaluation",
          VStr (if flt min_diff 0.15 then "優秀"
                else if flt min_diff 0.25 then "良好"
                else if flt min_diff 0.35 then "標準的"
                else "個性的"))]).
Proof.
  intros Hw. destruct Hreads as [Hn Hc Hf Hu Hl Hlc Hrc].
  unfold _analyze_face_proportions, getitem.
  rewrite Hf, Hc, Hlc, Hrc. cbn [bind].
  fold face_width face_height.
  rewrite feq_false by exact Hw.
  unfold py_div. rewrite feq_false by exact Hw. cbn [bind]. cbv zeta.
  destruct (feq _ _); [reflexivity |].
  destruct (feq _ _); reflexivity.
Qed.
End Measurements.

(** ** The records conform to their models *)

Lemma in_bounds_unit (v : R) :
  0 <= v <= 1 -> in_bounds (Some 0) (Some 1) v = true.
Proof. intros [H0 H1]. unfold in_bounds. now rewrite !fle_true. Qed.

Ltac conforms_by_computation :=
  eexists; split; [reflexivity |];
  cbn; unfold in_bounds; fcases; reflexivity.

Lemma face_contour_conforms (landmarks : list Landmark) (image_shape : Z * Z) :
  conforms "FaceContour" FaceContour
           (_analyze_face_contour landmarks image_shape).
Proof. conforms_by_computation. Qed.

Lemma philtrum_chin_conforms (landmarks : list Landmark)
    (image_shape : Z * Z) :
  conforms "PhiltrumChinRatio" PhiltrumChinRatio
           (_analyze_philtrum_chin_ratio landmarks image_shape).
Proof. conforms_by_computation. Qed.

Lemma nasolabial_angle_conforms (landmarks : list Landmark) :
  conforms "NasolabialAngle" NasolabialAngle
           (_analyze_nasolabial_angle landmarks).
Proof. conforms_by_computation. Qed.

Lemma vline_conforms (landmarks : list Landmark) (image_shape : Z * Z) :
  conforms "VlineAnalysis" VlineAnalysis
           (_analyze_vline_curvature landmarks image_shape).
Proof. conforms_by_computation. Qed.

Lemma symmetry_conforms (landmarks : list Landmark) (image_shape : Z * Z) :
  conforms "SymmetryAnalysis" SymmetryAnalysis
           (_analyze_facial_symmetry landmarks image_shape).
Proof. conforms_by_computation. Qed.

Lemma dental_protrusion_conforms (landmarks : list Landmark)
    (image_shape : Z * Z) :
  conforms "DentalProtrusion" DentalProtrusion
           (_analyze_dental_protrusion landmarks image_shape).
Proof. conforms_by_computation. Qed.

Lemma facial_harmony_conforms (landmarks : list Landmark)
    (image_shape : Z * Z) :
  conforms "FacialHarmony" FacialHarmony
           (_analyze_facial_harmony landmarks image_shape).
Proof. conforms_by_computation. Qed.

Lemma overall_score_conforms (analysis_results : pydict) :
  conforms "OverallScore" OverallScore
           (_calculate_overall_score analysis_results).
Proof. conforms_by_computation. Qed.

Lemma eline_conforms (self : Analyzer.t) (landmarks : list Landmark)
    (image_shape : Z * Z)
    (nose chin forehead upper lower lcheek rcheek : Landmark) :
  reads self landmarks nose chin forehead upper lower lcheek rcheek ->
  conforms "ElineAnalysis" ElineAnalysis
           (_analyze_eline self landmarks image_shape).
Proof.
  intros Hreads.
  destruct (analyze_eline_unfold self landmarks image_shape
              nose chin forehead upper lower lcheek rcheek Hreads)
    as [du [dl [_ [_ [_ [_ E]]]]]].
  rewrite E. eexists. split; reflexivity.
Qed.

Lemma proportions_conforms (self : Analyzer.t) (landmarks : list Landmark)
    (image_shape : Z * Z)
    (nose chin forehead upper lower lcheek rcheek : Landmark) :
  reads self landmarks nose chin forehead upper lower lcheek rcheek ->
  _calculate_distance lcheek rcheek image_shape <> 0 ->
  conforms "FaceProportions" FaceProportions
           (_analyze_face_proportions self landmarks image_shape).
Proof.
  intros Hreads Hw.
  rewrite (analyze_face_proportions_unfold self landmarks image_shape
             nose chin forehead upper lower lcheek rcheek Hreads Hw).
  eexists. split; reflexivity.
Qed.

(** The error marker is not a face-proportions record. *)
Lemma proportions_error_rejected :
  validate_model "FaceProportions" FaceProportions
                 [("error", VStr proportions_error_message)]
  = Raise (ValidationError "FaceProportions" "aspect_ratio").
Proof. reflexivity. Qed.

Lemma face_angle_conforms (self : Analyzer.t) (landmarks : list Landmark)
    (nose lcheek rcheek : Landmark) :
  nth_error landmarks (LandmarkTable.nose_tip (idx self)) = Some nose ->
  nth_error landmarks (LandmarkTable.left_cheek (idx self)) = Some lcheek ->
  nth_error landmarks (LandmarkTable.right_cheek (idx self)) = Some rcheek ->
  ~ (Rabs (x nose - x lcheek) = 0 /\ Rabs (x nose - x rcheek) = 0) ->
  conforms "FaceAngle" FaceAngle (_detect_face_angle self landmarks).
Proof.
  intros Hn Hl Hr Hnz.
  pose proof (ratio_unit nose lcheek rcheek Hnz) as Hu. cbv zeta in Hu.
  pose proof (py_round_unit _ 3%nat Hu) as Hru.
  set (r := Rabs (x nose - x lcheek)
            / (Rabs (x nose - x lcheek) + Rabs (x nose - x rcheek))) in *.
  destruct (Rle_dec 0.4 r) as [H4 | H4]; [destruct (Rle_dec r 0.6) as [H6 | H6] |].
  - rewrite (detect_face_angle_frontal self landmarks nose lcheek rcheek
               Hn Hl Hr Hnz) by (fold r; lra).
    fold r.
    assert (Hc : 0 <= 1 - Rabs (r - 0.5) * 2 <= 1).
    { unfold Rabs. destruct (Rcase_abs (r - 0.5)); lra. }
    apply (py_round_unit _ 2%nat) in Hc.
    eexists. split; [reflexivity |].
    cbn. rewrite !in_bounds_unit by assumption. reflexivity.
  - destruct (Rlt_dec 0.7 r) as [H7 | H7].
    + rewrite (detect_face_angle_facing_left self landmarks nose lcheek rcheek
                 Hn Hl Hr Hnz) by (fold r; lra).
      fold r. eexists. split; [reflexivity |].
      cbn. rewrite !in_bounds_unit by (try assumption; lra). reflexivity.
    + rewrite (detect_face_angle_oblique self landmarks nose lcheek rcheek
                 Hn Hl Hr Hnz) by (fold r; lra).
      fold r. eexists. split; [reflexivity |].
      cbn. rewrite !in_bounds_unit by (try assumption; lra). reflexivity.
  - destruct (Rlt_dec r 0.3) as [H3 | H3].
    + rewrite (detect_face_angle_facing_right self landmarks nose lcheek
                 rcheek Hn Hl Hr Hnz) by (fold r; lra).
      fold r. eexists. split; [reflexivity |].
      cbn. rewrite !in_bounds_unit by (try assumption; lra). reflexivity.
    + rewrite (detect_face_angle_oblique self landmarks nose lcheek rcheek
                 Hn Hl Hr Hnz) by (fold r; lra).
      fold r. eexists. split; [reflexivity |].
      cbn. rewrite !in_bounds_unit by (try assumption; lra). reflexivity.
Qed.

(** ** The pipeline *)

Lemma validate_optional_str_inv (model field : string) (v v' : option pyval) :
  validate_optional_str model field v = Ok v' -> v' = v.
Proof.
  unfold validate_optional_str. destruct v as [s |].
  - destruct (is_str s); [| discriminate]. now intros [= <-].
  - now intros [= <-].
Qed.

Lemma validate_list_str_inv (model field : string) (l l' : list pyval) :
  validate_list_str model field l = Ok l' -> l' = l.
Proof.
  unfold validate_list_str. destruct (forallb is_str l); [| discriminate].
  now intros [= <-].
Qed.

(** A record that the face-angle model accepts yields a warning, or none,
    that the result model accepts. *)
Lemma get_angle_warning_total (face_angle face_angle' : pydict) :
  validate_model "FaceAngle" FaceAngle face_angle = Ok face_angle' ->
  exists w,
    _get_angle_warning face_angle = Ok w
    /\ validate_optional_str "FaceAnalysisResult" "angle_warning" w = Ok w.
Proof.
  intros H. unfold FaceAngle in H. cbn [validate_model] in H.
  destruct (dict_get "angle" face_angle) as [va |] eqn:Ea;
    cbn [bind] in H; [| discriminate].
  destruct (validate_value TStr va); cbn [bind] in H; [| discriminate].
  destruct (dict_get "ratio" face_angle) as [vr |];
    cbn [bind] in H; [| discriminate].
  destruct (validate_value unit_interval vr);
    cbn [bind] in H; [| discriminate].
  destruct (dict_get "confidence" face_angle) as [vc |] eqn:Ec;
    cbn [bind] in H; [| discriminate].
  destruct (validate_value unit_interval vc);
    cbn [bind] in H; [| discriminate].
  destruct (dict_get "suitable_for_analysis" face_angle) as [vs |] eqn:Es;
    cbn [bind] in H; [| discriminate].
  destruct vs; cbn [validate_value bind] in H; try discriminate.
  unfold _get_angle_warning, dict_get_default, dict_item.
  rewrite Es, Ea, Ec.
  destruct b; cbn; eexists; split; reflexivity.
Qed.

(** What a successful run is made of. *)
Lemma analysis_inv (self : Analyzer.t) (landmarks : list Landmark)
    (image_shape : Z * Z) (filename : string) (now : Z)
    (res : FaceAnalysisResult.t) :
  _perform_comprehensive_analysis self landmarks image_shape filename now
  = Ok res ->
  exists face_angle eline proportions,
    _detect_face_angle self landmarks = Ok face_angle
    /\ _analyze_eline self landmarks image_shape = Ok eline
    /\ _analyze_face_proportions self landmarks image_shape = Ok proportions
    /\ _get_angle_warning face_angle = Ok (FaceAnalysisResult.angle_warning res)
    /\ validate_model "FaceAngle" FaceAngle face_angle
       = Ok (FaceAnalysisResult.face_angle res)
    /\ validate_model "ElineAnalysis" ElineAnalysis eline
       = Ok (FaceAnalysisResult.eline res)
    /\ validate_model "FaceProportions" FaceProportions proportions
       = Ok (FaceAnalysisResult.proportions res)
    /\ FaceAnalysisResult.timestamp res = now
    /\ (forall analysis_results,
          _calculate_overall_score analysis_results
          = Ok (FaceAnalysisResult.overall_score res))
    /\ (forall analysis_results,
          _generate_beauty_advice analysis_results
          = Ok (FaceAnalysisResult.beauty_advice res)).
Proof.
  intros H. destruct image_shape as [h w].
  unfold _perform_comprehensive_analysis in H.
  destruct (_detect_face_angle self landmarks) as [fa |] eqn:Efa;
    cbn [bind try_except] in H; [| discriminate].
  destruct (face_contour_conforms landmarks (h, w)) as [dc [Ec Vc]].
  rewrite Ec in H. cbn [bind] in H.
  destruct (_analyze_eline self landmarks (h, w)) as [el |] eqn:Eel;
    cbn [bind try_except] in H; [| discriminate].
  destruct (_analyze_face_proportions self landmarks (h, w)) as [pr |] eqn:Epr;
    cbn [bind try_except] in H; [| discriminate].
  destruct (philtrum_chin_conforms landmarks (h, w)) as [dp [Ep Vp]].
  rewrite Ep in H. cbn [bind] in H.
  destruct (nasolabial_angle_conforms landmarks) as [dn [En Vn]].
  rewrite En in H. cbn [bind] in H.
  destruct (vline_conforms landmarks (h, w)) as [dv [Ev Vv]].
  rewrite Ev in H. cbn [bind] in H.
  destruct (symmetry_conforms landmarks (h, w)) as [ds [Es Vs]].
  rewrite Es in H. cbn [bind] in H.
  destruct (dental_protrusion_conforms landmarks (h, w)) as [dd [Ed Vd]].
  rewrite Ed in H. cbn [bind] in H.
  destruct (facial_harmony_conforms landmarks (h, w)) as [dh [Eh Vh]].
  rewrite Eh in H. cbn [bind] in H.
  match type of H with
  | context [_calculate_overall_score ?ar] =>
      destruct (overall_score_conforms ar) as [dsc [Eo Vo]]
  end.
  rewrite Eo in H. cbn [bind] in H.
  unfold _generate_beauty_advice in H. cbn [bind] in H.
  destruct (_get_angle_warning fa) as [aw |] eqn:Eaw;
    cbn [bind try_except] in H; [| discriminate].
  unfold FaceAnalysisResult_init in H.
  destruct (validate_model "FaceAngle" FaceAngle fa) as [fa' |] eqn:Vfa;
    cbn [bind try_except] in H; [| discriminate].
  rewrite Vc in H. cbn [bind] in H.
  destruct (validate_model "ElineAnalysis" ElineAnalysis el) as [el' |] eqn:Vel;
    cbn [bind try_except] in H; [| discriminate].
  destruct (validate_model "FaceProportions" FaceProportions pr)
    as [pr' |] eqn:Vpr;
    cbn [bind try_except] in H; [| discriminate].
  rewrite Vp in H. cbn [bind] in H.
  rewrite Vn in H. cbn [bind] in H.
  rewrite Vv in H. cbn [bind] in H.
  rewrite Vs in H. cbn [bind] in H.
  rewrite Vd in H. cbn [bind] in H.
  rewrite Vh in H. cbn [bind] in H.
  rewrite Vo in H. cbn [bind] in H.
  match type of H with
  | context [validate_list_str ?m ?f ?l] =>
      destruct (validate_list_str m f l) as [adv |] eqn:Vadv;
      cbn [bind try_except] in H; [| discriminate]
  end.
  apply validate_list_str_inv in Vadv. subst adv.
  destruct (validate_optional_str "FaceAnalysisResult" "angle_warning" aw)
    as [aw' |] eqn:Vaw;
    cbn [bind try_except] in H; [| discriminate].
  apply validate_optional_str_inv in Vaw. subst aw'.
  injection H as <-.
  exists fa, el, pr. cbn.
  repeat split; try assumption; try reflexivity.
  intros ar. exact Eo.
Qed.

(** The run succeeds when the landmarks that are read exist, the nose tip is
    not level with both cheeks, and the face has a positive pixel width. *)
Lemma analysis_succeeds (self : Analyzer.t) (landmarks : list Landmark)
    (image_shape : Z * Z) (filename : string) (now : Z)
    (nose chin forehead upper lower lcheek rcheek : Landmark) :
  reads self landmarks nose chin forehead upper lower lcheek rcheek ->
  ~ (Rabs (x nose - x lcheek) = 0 /\ Rabs (x nose - x rcheek) = 0) ->
  _calculate_distance lcheek rcheek image_shape <> 0 ->
  exists res,
    _perform_comprehensive_analysis self landmarks image_shape filename now
    = Ok res.
Proof.
  intros Hreads Hnz Hw. destruct image_shape as [h w].
  destruct (face_angle_conforms self landmarks nose lcheek rcheek
              (reads_nose _ _ _ _ _ _ _ _ _ Hreads)
              (reads_lcheek _ _ _ _ _ _ _ _ _ Hreads)
              (reads_rcheek _ _ _ _ _ _ _ _ _ Hreads) Hnz) as [fa [Efa Vfa]].
  destruct (eline_conforms self landmarks (h, w) _ _ _ _ _ _ _ Hreads)
    as [el [Eel Vel]].
  destruct (proportions_conforms self landmarks (h, w) _ _ _ _ _ _ _ Hreads Hw)
    as [pr [Epr Vpr]].
  destruct (get_angle_warning_total fa fa Vfa) as [aw [Eaw Vaw]].
  destruct (face_contour_conforms landmarks (h, w)) as [dc [Ec Vc]].
  destruct (philtrum_chin_conforms landmarks (h, w)) as [dp [Ep Vp]].
  destruct (nasolabial_angle_conforms landmarks) as [dn [En Vn]].
  destruct (vline_conforms landmarks (h, w)) as [dv [Ev Vv]].
  destruct (symmetry_conforms landmarks (h, w)) as [ds [Es Vs]].
  destruct (dental_protrusion_conforms landmarks (h, w)) as [dd [Ed Vd]].
  destruct (facial_harmony_conforms landmarks (h, w)) as [dh [Eh Vh]].
  unfold _perform_comprehensive_analysis.
  rewrite Efa, Ec, Eel, Epr, Ep, En, Ev, Es, Ed, Eh. cbn [bind].
  match goal with
  | |- context [_calculate_overall_score ?ar] =>
      destruct (overall_score_conforms ar) as [dsc [Eo Vo]]
  end.
  rewrite Eo. cbn [bind].
  unfold _generate_beauty_advice. cbn [bind].
  rewrite Eaw. cbn [bind].
  unfold FaceAnalysisResult_init.
  rewrite Vfa, Vc, Vel, Vpr, Vp, Vn, Vv, Vs, Vd, Vh, Vo. cbn [bind].
  rewrite Vaw.
  eexists. reflexivity.
Qed.

(** With a zero pixel face width the run raises. *)
Lemma analysis_zero_width_raises (self : Analyzer.t)
    (landmarks : list Landmark) (image_shape : Z * Z) (filename : string)
    (now : Z) (nose chin forehead upper lower lcheek rcheek : Landmark) :
  reads self landmarks nose chin forehead upper lower lcheek rcheek ->
  _calculate_distance lcheek rcheek image_shape = 0 ->
  exists e,
    _perform_comprehensive_analysis self landmarks image_shape filename now
    = Raise (AnalysisError "comprehensive_analysis" e).
Proof.
  intros Hreads Hw. destruct image_shape as [h w].
  destruct (eline_conforms self landmarks (h, w) _ _ _ _ _ _ _ Hreads)
    as [el [Eel Vel]].
  pose proof (analyze_face_proportions_error self landmarks (h, w)
                _ _ _ _ _ _ _ Hreads Hw) as Epr.
  destruct (face_contour_conforms landmarks (h, w)) as [dc [Ec Vc]].
  destruct (philtrum_chin_conforms landmarks (h, w)) as [dp [Ep Vp]].
  destruct (nasolabial_angle_conforms landmarks) as [dn [En Vn]].
  destruct (vline_conforms landmarks (h, w)) as [dv [Ev Vv]].
  destruct (symmetry_conforms landmarks (h, w)) as [ds [Es Vs]].
  destruct (dental_protrusion_conforms landmarks (h, w)) as [dd [Ed Vd]].
  destruct (facial_harmony_conforms landmarks (h, w)) as [dh [Eh Vh]].
  unfold _perform_comprehensive_analysis.
  destruct (_detect_face_angle self landmarks) as [fa |];
    cbn [bind try_except]; [| eexists; reflexivity].
  rewrite Ec, Eel, Epr, Ep, En, Ev, Es, Ed, Eh. cbn [bind].
  match goal with
  | |- context [_calculate_overall_score ?ar] =>
      destruct (overall_score_conforms ar) as [dsc [Eo Vo]]
  end.
  rewrite Eo. cbn [bind].
  unfold _generate_beauty_advice. cbn [bind].
  destruct (_get_angle_warning fa) as [aw |];
    cbn [bind try_except]; [| eexists; reflexivity].
  unfold FaceAnalysisResult_init.
  destruct (validate_model "FaceAngle" FaceAngle fa);
    cbn [bind try_except]; [| eexists; reflexivity].
  rewrite Vc, Vel. cbn [bind].
  rewrite proportions_error_rejected. cbn [bind try_except].
  eexists. reflexivity.
Qed.

(** The clock reading reaches the result as its timestamp and nothing
    else. *)
Lemma analysis_timestamp (self : Analyzer.t) (landmarks : list Landmark)
    (image_shape : Z * Z) (filename : string) (t1 t2 : Z) :
  _perform_comprehensive_analysis self landmarks image_shape filename t2
  = result_map (set_timestamp t2)
      (_perform_comprehensive_analysis self landmarks image_shape filename t1).
Proof.
  destruct image_shape as [h w].
  unfold _perform_comprehensive_analysis, FaceAnalysisResult_init.
  repeat match goal with
    | |- context [bind ?m _] =>
        destruct m; cbn [bind try_except result_map]; try reflexivity
    end.
Qed.

Lemma Rabs_val (a b : R) :
  (0 <= a /\ b = a) \/ (a <= 0 /\ b = - a) -> Rabs a = b.
Proof.
  intros [[H ->] | [H ->]]; unfold Rabs; destruct (Rcase_abs a); lra.
Qed.

Lemma face_reads (nose chin forehead upper lower lcheek rcheek : Landmark) :
  reads init (face nose chin forehead upper lower lcheek rcheek)
        nose chin forehead upper lower lcheek rcheek.
Proof. split; reflexivity. Qed.

(** ** Pixel distances at known coordinates *)

Lemma py_int_floor (v : R) (z : Z) :
  0 <= IZR z -> IZR z <= v < IZR z + 1 -> py_int v = z.
Proof.
  intros H0 H. unfold py_int. rewrite fle_true by lra.
  symmetry. apply Int_part_spec. lra.
Qed.

Lemma calculate_distance_eval (p q : Landmark) (h w x1 y1 x2 y2 : Z) (d : R) :
  py_int (x p * IZR w) = x1 -> py_int (y p * IZR h) = y1 ->
  py_int (x q * IZR w) = x2 -> py_int (y q * IZR h) = y2 ->
  0 <= d -> d * d = IZR ((x2 - x1) ^ 2 + (y2 - y1) ^ 2) ->
  _calculate_distance p q (h, w) = d.
Proof.
  intros <- <- <- <- Hd Hsq. unfold _calculate_distance. cbn [fst snd].
  apply sqrt_lem_1; [| exact Hd | exact Hsq].
  apply IZR_le. nia.
Qed.

Lemma symmetric_width :
  _calculate_distance (mkLandmark 0.25 0.5) (mkLandmark 0.75 0.5) shape_100
  = 50.
Proof.
  apply (calculate_distance_eval _ _ _ _ 25 50 75 50); cbn [x y];
    try (apply py_int_floor; lra); try lra.
  simpl. lra.
Qed.


Lemma off_centre_width :
  _calculate_distance (mkLandmark 0 0.5) (mkLandmark 1 0.5) shape_100 = 100.
Proof.
  apply (calculate_distance_eval _ _ _ _ 0 50 100 50); cbn [x y];
    try (apply py_int_floor; lra); try lra.
  simpl. lra.
Qed.

Lemma narrow_width :
  _calculate_distance (mkLandmark 0.501 0.5) (mkLandmark 0.509 0.5) shape_100
  = 0.
Proof.
  apply (calculate_distance_eval _ _ _ _ 50 50 50 50); cbn [x y];
    try (apply py_int_floor; lra); try lra.
  simpl. lra.
Qed.

Lemma symmetric_not_level :
  ~ (Rabs (0.5 - 0.25) = 0 /\ Rabs (0.5 - 0.75) = 0).
Proof. rewrite (Rabs_val (0.5 - 0.25) 0.25) by lra. lra. Qed.

Lemma narrow_not_level :
  ~ (Rabs (0.3 - 0.501) = 0 /\ Rabs (0.3 - 0.509) = 0).
Proof. rewrite (Rabs_val (0.3 - 0.501) 0.201) by lra. lra. Qed.

(** C2: with a zero-length line (both endpoints equal to [a]) the
    point-to-line-distance helper returns exactly the Euclidean distance from
    [p] to [a] in normalized coordinates; with distinct endpoints [a], [b] it
    returns |cross(b-a, p-a)| / |b-a|; and for all arguments it returns a
    value, so it neither divides by zero nor raises. *)
Theorem C2_point_to_line_distance (p a b : Landmark) :
  _point_to_line_distance p a a = Ok (euclidean_distance p a)
  /\ (a <> b ->
      _point_to_line_distance p a b
      = Ok (Rabs ((x b - x a) * (y p - y a) - (y b - y a) * (x p - x a))
            / sqrt ((x b - x a) ^ 2 + (y b - y a) ^ 2)))
  /\ (exists d, _point_to_line_distance p a b = Ok d /\ 0 <= d).
Proof.
  split; [apply point_to_line_degenerate |].
  split; [apply point_to_line_proper | apply point_to_line_total].
Qed.

Lemma C2_point_to_line_distance_witness :
  mkLandmark 0 0 <> mkLandmark 1 0
  /\ _point_to_line_distance (mkLandmark 1 1) (mkLandmark 0 0) (mkLandmark 1 0)
     = Ok (Rabs ((1 - 0) * (1 - 0) - (0 - 0) * (1 - 0))
           / sqrt ((1 - 0) ^ 2 + (0 - 0) ^ 2)).
Proof.
  assert (H : mkLandmark 0 0 <> mkLandmark 1 0).
  { intros E. apply (f_equal x) in E. simpl in E. lra. }
  split; [exact H |].
  exact (proj1 (proj2 (C2_point_to_line_distance
                         (mkLandmark 1 1) (mkLandmark 0 0) (mkLandmark 1 0)))
           H).
Defined.










Lemma symmetric_width_nonzero :
  _calculate_distance (mkLandmark 0.25 0.5) (mkLandmark 0.75 0.5) shape_100
  <> 0.
Proof. rewrite symmetric_width. lra. Qed.


(** C1 (as amended): when the measured pixel face width is zero, the
    face-proportions analyzer does not raise: it returns a measurement that
    consists of the error marker alone, and the E-line analyzer, which scales
    by the same width, still returns its record.  The aggregation step does
    not look at the measurements: its detailed scores list proportions with
    the sub-score 75.0 whatever the measurement is. *)
Theorem C1_zero_width_error_marker
    (self : Analyzer.t) (landmarks : list Landmark) (image_shape : Z * Z)
    (nose chin forehead upper lower lcheek rcheek : Landmark)
    (Hreads : reads self landmarks nose chin forehead upper lower
                    lcheek rcheek)
    (Hwidth : _calculate_distance lcheek rcheek image_shape = 0) :
  _analyze_face_proportions self landmarks image_shape
  = Ok [("error", VStr proportions_error_message)]
  /\ (exists eline, _analyze_eline self landmarks image_shape = Ok eline)
  /\ (forall analysis_results,
        exists score,
          _calculate_overall_score analysis_results = Ok score
          /\ dict_get "proportions" (sub_dict "detailed_scores" score)
             = Some (VFloat 75.0)).
Proof.
  split; [| split].
  - exact (analyze_face_proportions_error self landmarks image_shape
             nose chin forehead upper lower lcheek rcheek Hreads Hwidth).
  - destruct (eline_conforms self landmarks image_shape
                nose chin forehead upper lower lcheek rcheek Hreads)
      as [el [E _]].
    exists el. exact E.
  - intros analysis_results. eexists. split; reflexivity.
Qed.

Lemma C1_zero_width_error_marker_witness :
  _calculate_distance (mkLandmark 0.501 0.5) (mkLandmark 0.509 0.5) shape_100
  = 0
  /\ _analyze_face_proportions init face_narrow shape_100
     = Ok [("error", VStr proportions_error_message)].
Proof.
  split; [exact narrow_width |].
  exact (proj1 (C1_zero_width_error_marker init face_narrow shape_100
                  _ _ _ _ _ _ _ (face_reads _ _ _ _ _ _ _) narrow_width)).
Defined.

(** C1 (as stated) fails: the cheeks of [face_narrow] fall on the same
    pixel, so the measured width is zero, and the call does not return a
    result. *)
Lemma C1_zero_width_call_raises :
  _calculate_distance (mkLandmark 0.501 0.5) (mkLandmark 0.509 0.5) shape_100
  = 0
  /\ ~ zero_width_recovered init face_narrow shape_100 "face.jpg" 0.
Proof.
  split; [exact narrow_width |].
  intros [res [E _]].
  destruct (analysis_zero_width_raises init face_narrow shape_100 "face.jpg"
              0%Z _ _ _ _ _ _ _ (face_reads _ _ _ _ _ _ _) narrow_width)
    as [e Ee].
  rewrite Ee in E. discriminate.
Qed.



(** C5 (as amended): for a fixed landmark set, image shape and filename,
    two calls have the same outcome up to the timestamp: a later call fails
    with the same error, or returns the record of the earlier call with the
    timestamp replaced by its own clock reading; every other field is
    identical, and the timestamp of a result is the clock reading of its
    call. *)
Theorem C5_determinism_up_to_timestamp
    (self : Analyzer.t) (landmarks : list Landmark) (image_shape : Z * Z)
    (filename : string) (t1 t2 : Z) :
  _perform_comprehensive_analysis self landmarks image_shape filename t2
  = result_map (set_timestamp t2)
      (_perform_comprehensive_analysis self landmarks image_shape filename t1)
  /\ (forall res,
        _perform_comprehensive_analysis self landmarks image_shape filename t1
        = Ok res ->
        FaceAnalysisResult.timestamp res = t1).
Proof.
  split.
  - apply analysis_timestamp.
  - intros res H.
    destruct (analysis_inv self landmarks image_shape filename t1 res H)
      as [fa [el [pr [_ [_ [_ [_ [_ [_ [_ [Ht _]]]]]]]]]]].
    exact Ht.
Qed.

Lemma symmetric_run_succeeds (now : Z) :
  exists res,
    _perform_comprehensive_analysis init face_symmetric shape_100 "face.jpg"
      now
    = Ok res.
Proof.
  exact (analysis_succeeds init face_symmetric shape_100 "face.jpg" now
           _ _ _ _ _ _ _ (face_reads _ _ _ _ _ _ _)
           symmetric_not_level symmetric_width_nonzero).
Qed.

Lemma C5_determinism_up_to_timestamp_witness :
  exists res,
    _perform_comprehensive_analysis init face_symmetric shape_100 "face.jpg" 0
    = Ok res
    /\ FaceAnalysisResult.timestamp res = 0%Z.
Proof.
  destruct (symmetric_run_succeeds 0) as [res E].
  exists res. split; [exact E |].
  exact (proj2 (C5_determinism_up_to_timestamp init face_symmetric shape_100
                  "face.jpg" 0 1) res E).
Defined.

(** C5 (as stated) fails: two calls on the same face at different clock
    readings return records that differ in their timestamp. *)
Lemma C5_results_differ_in_timestamp :
  ~ repeatable init face_symmetric shape_100 "face.jpg".
Proof.
  intros H. specialize (H 0%Z 1%Z).
  destruct (symmetric_run_succeeds 0) as [res E].
  rewrite (analysis_timestamp init face_symmetric shape_100 "face.jpg" 0 1)
    in H.
  rewrite E in H. cbn [result_map] in H.
  injection H as H.
  destruct (analysis_inv _ _ _ _ _ _ E)
    as [fa [el [pr [_ [_ [_ [_ [_ [_ [_ [Ht _]]]]]]]]]]].
  apply (f_equal FaceAnalysisResult.timestamp) in H.
  rewrite Ht in H. cbn in H. discriminate.
Qed.

Lemma midway_ratio (n l r : R) :
  n = (l + r) / 2 -> Rabs (n - l) <> 0 ->
  Rabs (n - l) / (Rabs (n - l) + Rabs (n - r)) = 0.5.
Proof.
  intros Hmid Hnz.
  assert (E : Rabs (n - r) = Rabs (n - l)).
  { replace (n - r) with (- (n - l)) by lra. apply Rabs_Ropp. }
  rewrite E. set (a := Rabs (n - l)) in *.
  assert (H : a / (a + a) = 1 / 2) by (field; lra).
  lra.
Qed.

Lemma detect_face_angle_midway (self : Analyzer.t) (landmarks : list Landmark)
    (nose lcheek rcheek : Landmark) :
  nth_error landmarks (LandmarkTable.nose_tip (idx self)) = Some nose ->
  nth_error landmarks (LandmarkTable.left_cheek (idx self)) = Some lcheek ->
  nth_error landmarks (LandmarkTable.right_cheek (idx self)) = Some rcheek ->
  x nose = (x lcheek + x rcheek) / 2 ->
  Rabs (x nose - x lcheek) <> 0 ->
  _detect_face_angle self landmarks = Ok frontal_record.
Proof.
  intros Hn Hl Hr Hmid Hnz.
  pose proof (midway_ratio _ _ _ Hmid Hnz) as Hratio.
  rewrite (detect_face_angle_frontal self landmarks nose lcheek rcheek
             Hn Hl Hr) by (try rewrite Hratio; lra).
  rewrite Hratio.
  rewrite (py_round_exact 0.5 3 500) by (simpl; lra).
  replace (1 - Rabs (0.5 - 0.5) * 2) with 1.0
    by (rewrite (Rabs_val (0.5 - 0.5) 0) by lra; lra).
  rewrite (py_round_exact 1.0 2 100) by (simpl; lra).
  reflexivity.
Qed.

Lemma frontal_record_accepted :
  validate_model "FaceAngle" FaceAngle frontal_record = Ok frontal_record.
Proof.
  cbn. rewrite !in_bounds_unit by lra. reflexivity.
Qed.

(** C8: when nose_tip.x is exactly midway between left_cheek.x and
    right_cheek.x and the two cheek distances are nonzero, the face-angle
    result has ratio 0.5, label frontal, confidence 1.0 and
    suitable_for_analysis true, no angle warning is generated for it, and
    every assembled result carries that record and angle_warning None. *)
Theorem C8_symmetric_face_is_frontal
    (self : Analyzer.t) (landmarks : list Landmark)
    (nose lcheek rcheek : Landmark)
    (Hnose : nth_error landmarks (LandmarkTable.nose_tip (idx self))
             = Some nose)
    (Hlcheek : nth_error landmarks (LandmarkTable.left_cheek (idx self))
               = Some lcheek)
    (Hrcheek : nth_error landmarks (LandmarkTable.right_cheek (idx self))
               = Some rcheek)
    (Hmid : x nose = (x lcheek + x rcheek) / 2)
    (Hleft : Rabs (x nose - x lcheek) <> 0)
    (Hright : Rabs (x nose - x rcheek) <> 0) :
  _detect_face_angle self landmarks
  = Ok [("angle", VStr label_frontal); ("ratio", VFloat 0.5);
        ("confidence", VFloat 1.0); ("suitable_for_analysis", VBool true)]
  /\ _get_angle_warning
       [("angle", VStr label_frontal); ("ratio", VFloat 0.5);
        ("confidence", VFloat 1.0); ("suitable_for_analysis", VBool true)]
     = Ok None
  /\ (forall image_shape filename now res,
        _perform_comprehensive_analysis self landmarks image_shape filename now
        = Ok res ->
        FaceAnalysisResult.face_angle res
        = [("angle", VStr label_frontal); ("ratio", VFloat 0.5);
           ("confidence", VFloat 1.0); ("suitable_for_analysis", VBool true)]
        /\ FaceAnalysisResult.angle_warning res = None).
Proof.
  pose proof (detect_face_angle_midway self landmarks nose lcheek rcheek
                Hnose Hlcheek Hrcheek Hmid Hleft) as Hd.
  split; [exact Hd |]. split; [reflexivity |].
  intros image_shape filename now res Hres.
  destruct (analysis_inv self landmarks image_shape filename now res Hres)
    as [fa [el [pr [Efa [_ [_ [Hw [Vfa _]]]]]]]].
  rewrite Hd in Efa. injection Efa as <-.
  rewrite frontal_record_accepted in Vfa. injection Vfa as Vfa.
  split; [symmetry; exact Vfa |].
  cbn in Hw. injection Hw as Hw. symmetry. exact Hw.
Qed.

Lemma C8_symmetric_face_is_frontal_witness :
  exists res,
    _perform_comprehensive_analysis init face_symmetric shape_100 "face.jpg" 0
    = Ok res
    /\ FaceAnalysisResult.face_angle res
       = [("angle", VStr label_frontal); ("ratio", VFloat 0.5);
          ("confidence", VFloat 1.0); ("suitable_for_analysis", VBool true)]
    /\ FaceAnalysisResult.angle_warning res = None.
Proof.
  destruct (symmetric_run_succeeds 0) as [res E].
  exists res. split; [exact E |].
  assert (Hmid : 0.5 = (0.25 + 0.75) / 2) by lra.
  assert (Hleft : Rabs (0.5 - 0.25) <> 0).
  { rewrite (Rabs_val (0.5 - 0.25) 0.25) by lra. lra. }
  assert (Hright : Rabs (0.5 - 0.75) <> 0).
  { rewrite (Rabs_val (0.5 - 0.75) 0.25) by lra. lra. }
  exact (proj2 (proj2 (C8_symmetric_face_is_frontal init face_symmetric
                         (mkLandmark 0.5 0.5) (mkLandmark 0.25 0.5)
                         (mkLandmark 0.75 0.5) eq_refl eq_refl eq_refl
                         Hmid Hleft Hright))
           shape_100 "face.jpg" 0%Z res E).
Defined.

(** C9: the generated advice list is never empty and its last element is
    the fixed disclaimer that the advice is not medical advice; so is the
    beauty_advice of every result that the analysis returns. *)
Theorem C9_advice_ends_with_disclaimer :
  (forall analysis_results,
     exists advice,
       _generate_beauty_advice analysis_results = Ok advice
       /\ (1 <= List.length advice)%nat
       /\ last advice VNone = VStr disclaimer)
  /\ (forall self landmarks image_shape filename now res,
        _perform_comprehensive_analysis self landmarks image_shape filename now
        = Ok res ->
        (1 <= List.length (FaceAnalysisResult.beauty_advice res))%nat
        /\ last (FaceAnalysisResult.beauty_advice res) VNone
           = VStr disclaimer).
Proof.
  split.
  - intros analysis_results. eexists.
    split; [reflexivity |]. split; [cbn; lia | reflexivity].
  - intros self landmarks image_shape filename now res Hres.
    destruct (analysis_inv self landmarks image_shape filename now res Hres)
      as [fa [el [pr [_ [_ [_ [_ [_ [_ [_ [_ [_ Hadv]]]]]]]]]]]].
    specialize (Hadv []). unfold _generate_beauty_advice in Hadv.
    injection Hadv as <-.
    split; [cbn; lia | reflexivity].
Qed.

Lemma C9_advice_ends_with_disclaimer_witness :
  exists res,
    _perform_comprehensive_analysis init face_symmetric shape_100 "face.jpg" 0
    = Ok res
    /\ last (FaceAnalysisResult.beauty_advice res) VNone = VStr disclaimer.
Proof.
  destruct (symmetric_run_succeeds 0) as [res E].
  exists res. split; [exact E |].
  exact (proj2 (proj2 C9_advice_ends_with_disclaimer
                  init face_symmetric shape_100 "face.jpg" 0%Z res E)).
Defined.

(** * Further properties of the analyzer *)

(** ** Pixel distance *)

Lemma sqrt_IZR_zero (n : Z) : (0 <= n)%Z -> (sqrt (IZR n) = 0 <-> n = 0%Z).
Proof.
  intros Hn. split.
  - intros H. apply sqrt_eq_0 in H; [| apply IZR_le; exact Hn].
    apply eq_IZR. exact H.
  - intros ->. apply sqrt_0.
Qed.

(** The pixel distance does not depend on the order of its two landmarks,
    is never negative, and is zero exactly when both landmarks are
    truncated to the same pixel. *)
Theorem calculate_distance_metric (p q : Landmark) (h w : Z) :
  _calculate_distance p q (h, w) = _calculate_distance q p (h, w)
  /\ 0 <= _calculate_distance p q (h, w)
  /\ (_calculate_distance p q (h, w) = 0
      <-> py_int (x p * IZR w) = py_int (x q * IZR w)
          /\ py_int (y p * IZR h) = py_int (y q * IZR h)).
Proof.
  split; [| split].
  - unfold _calculate_distance. cbn [fst snd]. f_equal. f_equal. ring.
  - unfold _calculate_distance. apply sqrt_pos.
  - unfold _calculate_distance. cbn [fst snd].
    rewrite sqrt_IZR_zero by nia.
    split; [intros H; split; nia | intros [-> ->]; ring].
Qed.

Lemma py_int_range (v : R) (n : Z) :
  0 <= v <= IZR n -> (0 <= py_int v <= n)%Z.
Proof.
  intros [H0 Hn]. unfold py_int. rewrite fle_true by exact H0.
  destruct (base_Int_part v) as [Hlo Hhi].
  split.
  - assert (H : IZR (-1) < IZR (Int_part v)) by lra.
    apply lt_IZR in H. lia.
  - apply le_IZR. lra.
Qed.

(** For landmarks inside the unit square and an image of non-negative
    height and width, the pixel distance is at most the image diagonal. *)
Theorem calculate_distance_within_diagonal (p q : Landmark) (h w : Z) :
  (0 <= h)%Z -> (0 <= w)%Z ->
  0 <= x p <= 1 -> 0 <= y p <= 1 -> 0 <= x q <= 1 -> 0 <= y q <= 1 ->
  _calculate_distance p q (h, w) <= sqrt (IZR (w ^ 2 + h ^ 2)).
Proof.
  intros Hh Hw Hxp Hyp Hxq Hyq.
  apply IZR_le in Hh, Hw.
  assert (Bxp : (0 <= py_int (x p * IZR w) <= w)%Z)
    by (apply py_int_range; nra).
  assert (Byp : (0 <= py_int (y p * IZR h) <= h)%Z)
    by (apply py_int_range; nra).
  assert (Bxq : (0 <= py_int (x q * IZR w) <= w)%Z)
    by (apply py_int_range; nra).
  assert (Byq : (0 <= py_int (y q * IZR h) <= h)%Z)
    by (apply py_int_range; nra).
  unfold _calculate_distance. cbn [fst snd].
  apply sqrt_le_1; try (apply IZR_le; nia).
Qed.

Lemma calculate_distance_within_diagonal_witness :
  _calculate_distance (mkLandmark 0.25 0.5) (mkLandmark 0.75 0.5) (100, 100)%Z
  <= sqrt (IZR (100 ^ 2 + 100 ^ 2)).
Proof.
  apply (calculate_distance_within_diagonal
           (mkLandmark 0.25 0.5) (mkLandmark 0.75 0.5) 100 100);
    cbn [x y]; try lia; lra.
Defined.

(** ** Distance from a point to a line *)





(** For two distinct endpoints the distance is zero exactly when the point
    is collinear with them. *)
Theorem point_to_line_distance_zero_iff_collinear (p a b : Landmark) :
  a <> b ->
  (_point_to_line_distance p a b = Ok 0
   <-> (x b - x a) * (y p - y a) - (y b - y a) * (x p - x a) = 0).
Proof.
  intros Hab. rewrite (point_to_line_proper p a b Hab).
  set (c := (x b - x a) * (y p - y a) - (y b - y a) * (x p - x a)).
  set (n := sqrt ((x b - x a) ^ 2 + (y b - y a) ^ 2)).
  assert (Hn : 0 < n).
  { unfold n. apply sqrt_lt_R0.
    destruct a as [ax ay], b as [bx by']. cbn [x y].
    pose proof (Rle_0_sqr (bx - ax)) as Sx.
    pose proof (Rle_0_sqr (by' - ay)) as Sy. unfold Rsqr in Sx, Sy.
    destruct (Req_dec_T ax bx) as [Ex | Ex].
    - destruct (Req_dec_T ay by') as [Ey | Ey].
      + exfalso. apply Hab. now subst.
      + assert (0 < (by' - ay) * (by' - ay))
          by (destruct (Rdichotomy _ _ Ey); nra).
        simpl. lra.
    - assert (0 < (bx - ax) * (bx - ax))
        by (destruct (Rdichotomy _ _ Ex); nra).
      simpl. lra. }
  split.
  - intros [= H].
    assert (Hc : Rabs c = 0).
    { apply Rmult_eq_reg_r with (r := / n).
      - unfold Rdiv in H. lra.
      - apply Rinv_neq_0_compat. lra. }
    destruct (Req_dec_T c 0) as [Hz | Hz]; [exact Hz |].
    apply Rabs_no_R0 in Hz. contradiction.
  - intros ->. rewrite Rabs_R0. f_equal. unfold Rdiv. ring.
Qed.

Lemma point_to_line_distance_zero_iff_collinear_witness :
  _point_to_line_distance (mkLandmark 0.5 0.65) (mkLandmark 0.5 0.5)
                          (mkLandmark 0.5 0.9)
  = Ok 0.
Proof.
  assert (Hab : mkLandmark 0.5 0.5 <> mkLandmark 0.5 0.9).
  { intros E. apply (f_equal y) in E. cbn in E. lra. }
  apply (point_to_line_distance_zero_iff_collinear
           (mkLandmark 0.5 0.65) (mkLandmark 0.5 0.5) (mkLandmark 0.5 0.9) Hab).
  cbn [x y]. lra.
Defined.

(** ** Reported values of the face-angle record *)

Lemma round_half_even_between (v : R) (lo hi : Z) :
  IZR lo <= v <= IZR hi -> (lo <= round_half_even v <= hi)%Z.
Proof.
  intros [Hlo Hhi]. unfold round_half_even.
  destruct (base_Int_part v) as [Hf1 Hf2].
  set (f := Int_part v) in *.
  assert (Hflo : (lo <= f)%Z).
  { assert (H : IZR (lo - 1) < IZR f) by (rewrite minus_IZR; lra).
    apply lt_IZR in H. lia. }
  assert (Hfhi : (f <= hi)%Z) by (apply le_IZR; lra).
  destruct (flt (v - IZR f) (1 / 2)) eqn:E1; [lia |].
  assert (Hd : 1 / 2 <= v - IZR f).
  { destruct (Rle_dec (1 / 2) (v - IZR f)) as [Hle | Hnle]; [exact Hle |].
    rewrite flt_true in E1 by lra. discriminate. }
  assert (Hlt : (f < hi)%Z) by (apply lt_IZR; lra).
  destruct (flt (1 / 2) (v - IZR f)); [lia |].
  destruct (Z.even f); lia.
Qed.


Lemma py_round_between (v : R) (n : nat) (lo hi : Z) :
  IZR lo / 10 ^ n <= v <= IZR hi / 10 ^ n ->
  IZR lo / 10 ^ n <= py_round v n <= IZR hi / 10 ^ n.
Proof.
  intros [Hlo Hhi]. pose proof (pow10_pos n) as Hp.
  assert (Hb : IZR lo <= v * 10 ^ n <= IZR hi).
  { split.
    - apply Rmult_le_compat_r with (r := 10 ^ n) in Hlo; [| lra].
      unfold Rdiv in Hlo. rewrite Rmult_assoc, Rinv_l in Hlo by lra. lra.
    - apply Rmult_le_compat_r with (r := 10 ^ n) in Hhi; [| lra].
      unfold Rdiv in Hhi. rewrite Rmult_assoc, Rinv_l in Hhi by lra. lra. }
  apply round_half_even_between in Hb. destruct Hb as [Hb1 Hb2].
  apply IZR_le in Hb1, Hb2. unfold py_round.
  assert (Hinv : 0 < / 10 ^ n) by (apply Rinv_0_lt_compat; exact Hp).
  unfold Rdiv. split; apply Rmult_le_compat_r; lra.
Qed.


(** The record of a face whose nose tip is not level with both cheeks. *)
Lemma detect_face_angle_classified (self : Analyzer.t)
    (landmarks : list Landmark) (nose lcheek rcheek : Landmark) :
  nth_error landmarks (LandmarkTable.nose_tip (idx self)) = Some nose ->
  nth_error landmarks (LandmarkTable.left_cheek (idx self)) = Some lcheek ->
  nth_error landmarks (LandmarkTable.right_cheek (idx self)) = Some rcheek ->
  ~ (Rabs (x nose - x lcheek) = 0 /\ Rabs (x nose - x rcheek) = 0) ->
  exists label confidence suitable,
    _detect_face_angle self landmarks
    = Ok [("angle", VStr label);
          ("ratio",
           VFloat (py_round (Rabs (x nose - x lcheek)
                             / (Rabs (x nose - x lcheek)
                                + Rabs (x nose - x rcheek))) 3));
          ("confidence", VFloat confidence);
          ("suitable_for_analysis", VBool suitable)]
    /\ ((label = label_frontal /\ 0.8 <= confidence <= 1 /\ suitable = true)
        \/ (label = label_facing_right /\ confidence = 0.7
            /\ suitable = true)
        \/ (label = label_facing_left /\ confidence = 0.7
            /\ suitable = true)
        \/ (label = label_oblique /\ confidence = 0.5
            /\ suitable = false)).
Proof.
  intros Hn Hl Hr Hnz.
  set (r := Rabs (x nose - x lcheek)
            / (Rabs (x nose - x lcheek) + Rabs (x nose - x rcheek))).
  destruct (Rle_dec 0.4 r) as [H4 | H4];
    [destruct (Rle_dec r 0.6) as [H6 | H6] |].
  - rewrite (detect_face_angle_frontal self landmarks nose lcheek rcheek
               Hn Hl Hr Hnz) by (fold r; lra).
    fold r. eexists. eexists. eexists. split; [reflexivity |]. left.
    split; [reflexivity |]. split; [| reflexivity].
    assert (Hc : IZR 80 / 10 ^ 2 <= 1 - Rabs (r - 0.5) * 2
                 <= IZR 100 / 10 ^ 2).
    { unfold Rabs. destruct (Rcase_abs (r - 0.5)); simpl; lra. }
    apply py_round_between in Hc. simpl in Hc. lra.
  - destruct (Rlt_dec 0.7 r) as [H7 | H7].
    + rewrite (detect_face_angle_facing_left self landmarks nose lcheek
                 rcheek Hn Hl Hr Hnz) by (fold r; lra).
      fold r. eexists. eexists. eexists. split; [reflexivity |].
      right. right. left. repeat split; reflexivity.
    + rewrite (detect_face_angle_oblique self landmarks nose lcheek rcheek
                 Hn Hl Hr Hnz) by (fold r; lra).
      fold r. eexists. eexists. eexists. split; [reflexivity |].
      right. right. right. repeat split; reflexivity.
  - destruct (Rlt_dec r 0.3) as [H3 | H3].
    + rewrite (detect_face_angle_facing_right self landmarks nose lcheek
                 rcheek Hn Hl Hr Hnz) by (fold r; lra).
      fold r. eexists. eexists. eexists. split; [reflexivity |].
      right. left. repeat split; reflexivity.
    + rewrite (detect_face_angle_oblique self landmarks nose lcheek rcheek
                 Hn Hl Hr Hnz) by (fold r; lra).
      fold r. eexists. eexists. eexists. split; [reflexivity |].
      right. right. right. repeat split; reflexivity.
Qed.

(** A record is returned only when the three landmarks exist. *)
Lemma detect_face_angle_reads (self : Analyzer.t) (landmarks : list Landmark)
    (face_angle : pydict) :
  _detect_face_angle self landmarks = Ok face_angle ->
  exists nose lcheek rcheek,
    nth_error landmarks (LandmarkTable.nose_tip (idx self)) = Some nose
    /\ nth_error landmarks (LandmarkTable.left_cheek (idx self))
       = Some lcheek
    /\ nth_error landmarks (LandmarkTable.right_cheek (idx self))
       = Some rcheek.
Proof.
  intros H. unfold _detect_face_angle, getitem in H.
  destruct (nth_error landmarks (LandmarkTable.nose_tip (idx self)))
    as [nose |]; cbn [bind] in H; [| discriminate].
  destruct (nth_error landmarks (LandmarkTable.left_cheek (idx self)))
    as [lcheek |]; cbn [bind] in H; [| discriminate].
  destruct (nth_error landmarks (LandmarkTable.right_cheek (idx self)))
    as [rcheek |]; cbn [bind] in H; [| discriminate].
  exists nose, lcheek, rcheek. repeat split; reflexivity.
Qed.

(** The records that the face-angle detector returns. *)
Lemma detect_face_angle_inv (self : Analyzer.t) (landmarks : list Landmark)
    (face_angle : pydict) :
  _detect_face_angle self landmarks = Ok face_angle ->
  face_angle = [("angle", VStr label_unknown); ("confidence", VFloat 0);
                ("suitable_for_analysis", VBool false)]
  \/ exists label ratio confidence suitable,
       face_angle = [("angle", VStr label); ("ratio", VFloat ratio);
                     ("confidence", VFloat confidence);
                     ("suitable_for_analysis", VBool suitable)]
       /\ 0 <= ratio <= 1
       /\ ((label = label_frontal /\ 0.8 <= confidence <= 1
            /\ suitable = true)
           \/ (label = label_facing_right /\ confidence = 0.7
               /\ suitable = true)
           \/ (label = label_facing_left /\ confidence = 0.7
               /\ suitable = true)
           \/ (label = label_oblique /\ confidence = 0.5
               /\ suitable = false)).
Proof.
  intros H.
  destruct (detect_face_angle_reads self landmarks face_angle H)
    as [nose [lcheek [rcheek [Hn [Hl Hr]]]]].
  destruct (Req_dec_T (Rabs (x nose - x lcheek)) 0) as [Zl | Zl];
    [destruct (Req_dec_T (Rabs (x nose - x rcheek)) 0) as [Zr | Zr] |].
  - left.
    rewrite (detect_face_angle_unknown self landmarks nose lcheek rcheek
               Hn Hl Hr Zl Zr) in H.
    now injection H as <-.
  - right.
    assert (Hnz : ~ (Rabs (x nose - x lcheek) = 0
                     /\ Rabs (x nose - x rcheek) = 0))
      by (intros [_ E]; contradiction).
    destruct (detect_face_angle_classified self landmarks nose lcheek rcheek
                Hn Hl Hr Hnz) as [label [conf [suit [E Hcases]]]].
    rewrite E in H. injection H as <-.
    exists label. eexists. exists conf, suit.
    split; [reflexivity |]. split; [| exact Hcases].
    apply py_round_unit. exact (ratio_unit nose lcheek rcheek Hnz).
  - right.
    assert (Hnz : ~ (Rabs (x nose - x lcheek) = 0
                     /\ Rabs (x nose - x rcheek) = 0))
      by (intros [E _]; contradiction).
    destruct (detect_face_angle_classified self landmarks nose lcheek rcheek
                Hn Hl Hr Hnz) as [label [conf [suit [E Hcases]]]].
    rewrite E in H. injection H as <-.
    exists label. eexists. exists conf, suit.
    split; [reflexivity |]. split; [| exact Hcases].
    apply py_round_unit. exact (ratio_unit nose lcheek rcheek Hnz).
Qed.

(** Every face-angle record keeps its reported values in range: the
    confidence lies in [0, 1], a ratio, when present, lies in [0, 1], and
    the suitability flag, although computed before rounding, is true exactly
    when the reported confidence exceeds 0.6; it is false exactly for the
    labels unknown and oblique. *)
Theorem face_angle_record_invariants (self : Analyzer.t)
    (landmarks : list Landmark) (face_angle : pydict) :
  _detect_face_angle self landmarks = Ok face_angle ->
  exists label confidence suitable,
    dict_get "angle" face_angle = Some (VStr label)
    /\ dict_get "confidence" face_angle = Some (VFloat confidence)
    /\ dict_get "suitable_for_analysis" face_angle = Some (VBool suitable)
    /\ 0 <= confidence <= 1
    /\ (suitable = true <-> 0.6 < confidence)
    /\ (suitable = false <-> label = label_unknown \/ label = label_oblique)
    /\ (forall v, dict_get "ratio" face_angle = Some v ->
          exists ratio, v = VFloat ratio /\ 0 <= ratio <= 1).
Proof.
  intros H. apply detect_face_angle_inv in H.
  destruct H as [-> | [label [ratio [conf [suit [-> [Hr Hc]]]]]]].
  - exists label_unknown, 0, false. cbn.
    repeat split; try reflexivity; try lra; try discriminate; auto.
  - exists label, conf, suit. cbn.
    split; [reflexivity |]. split; [reflexivity |]. split; [reflexivity |].
    assert (Hv : forall v, Some (VFloat ratio) = Some v ->
                 exists ratio0, v = VFloat ratio0 /\ 0 <= ratio0 <= 1).
    { intros v [= <-]. exists ratio. split; [reflexivity | exact Hr]. }
    destruct Hc as [[-> [Hb ->]] | [[-> [-> ->]] | [[-> [-> ->]] | [-> [-> ->]]]]];
      unfold label_frontal, label_facing_right, label_facing_left,
        label_oblique, label_unknown;
      (split; [lra |]);
      (split; [split; intros; try reflexivity; try lra; try discriminate |]);
      (split; [| exact Hv]);
      (split; [intros; try discriminate; auto
              | intros [E | E]; try discriminate; try reflexivity]).
Qed.

Lemma face_angle_record_invariants_witness :
  exists confidence,
    dict_get "confidence" frontal_record = Some (VFloat confidence)
    /\ 0 <= confidence <= 1.
Proof.
  assert (H : _detect_face_angle init face_symmetric = Ok frontal_record).
  { apply (detect_face_angle_midway init face_symmetric
             (mkLandmark 0.5 0.5) (mkLandmark 0.25 0.5) (mkLandmark 0.75 0.5)
             eq_refl eq_refl eq_refl); cbn [x].
    - lra.
    - rewrite (Rabs_val (0.5 - 0.25) 0.25) by lra. lra. }
  destruct (face_angle_record_invariants init face_symmetric frontal_record H)
    as [label [confidence [suitable [_ [Hc [_ [Hb _]]]]]]].
  exists confidence. split; [exact Hc | exact Hb].
Defined.



(** ** Outcomes of the pipeline *)

(** A landmark sequence with fewer than 455 points makes the analysis fail
    at its first stage: the right-cheek position 454 does not exist. *)
Theorem analysis_short_landmark_list_raises (landmarks : list Landmark)
    (image_shape : Z * Z) (filename : string) (now : Z) :
  (List.length landmarks <= 454)%nat ->
  _perform_comprehensive_analysis init landmarks image_shape filename now
  = Raise (AnalysisError "comprehensive_analysis" IndexError).
Proof.
  intros Hlen. apply nth_error_None in Hlen.
  destruct image_shape as [h w].
  unfold _perform_comprehensive_analysis, _detect_face_angle, getitem.
  change (LandmarkTable.right_cheek (idx init)) with 454%nat.
  rewrite Hlen.
  destruct (nth_error landmarks (LandmarkTable.nose_tip (idx init)));
    cbn [bind try_except]; [| reflexivity].
  destruct (nth_error landmarks (LandmarkTable.left_cheek (idx init)));
    cbn [bind try_except]; reflexivity.
Qed.

Lemma analysis_short_landmark_list_raises_witness :
  _perform_comprehensive_analysis init [centre; centre] shape_100 "face.jpg" 0
  = Raise (AnalysisError "comprehensive_analysis" IndexError).
Proof.
  apply analysis_short_landmark_list_raises. cbn. lia.
Defined.

Lemma proportions_returns (self : Analyzer.t) (landmarks : list Landmark)
    (image_shape : Z * Z)
    (nose chin forehead upper lower lcheek rcheek : Landmark) :
  reads self landmarks nose chin forehead upper lower lcheek rcheek ->
  exists proportions,
    _analyze_face_proportions self landmarks image_shape = Ok proportions.
Proof.
  intros Hreads.
  destruct (Req_dec_T (_calculate_distance lcheek rcheek image_shape) 0)
    as [Hw | Hw].
  - eexists.
    exact (analyze_face_proportions_error self landmarks image_shape
             _ _ _ _ _ _ _ Hreads Hw).
  - destruct (proportions_conforms self landmarks image_shape
                _ _ _ _ _ _ _ Hreads Hw) as [pr [E _]].
    exists pr. exact E.
Qed.

(** When the nose tip has the same x as both cheeks, the detector answers
    unknown with a record that has no ratio, the result model requires one,
    and the whole analysis fails. *)
Theorem analysis_level_face_raises (self : Analyzer.t)
    (landmarks : list Landmark) (image_shape : Z * Z) (filename : string)
    (now : Z) (nose chin forehead upper lower lcheek rcheek : Landmark) :
  reads self landmarks nose chin forehead upper lower lcheek rcheek ->
  x nose = x lcheek -> x nose = x rcheek ->
  _perform_comprehensive_analysis self landmarks image_shape filename now
  = Raise (AnalysisError "comprehensive_analysis"
             (ValidationError "FaceAngle" "ratio")).
Proof.
  intros Hreads Hl Hr. destruct image_shape as [h w].
  assert (Efa : _detect_face_angle self landmarks
                = Ok [("angle", VStr label_unknown); ("confidence", VFloat 0);
                      ("suitable_for_analysis", VBool false)]).
  { apply (detect_face_angle_unknown self landmarks nose lcheek rcheek
             (reads_nose _ _ _ _ _ _ _ _ _ Hreads)
             (reads_lcheek _ _ _ _ _ _ _ _ _ Hreads)
             (reads_rcheek _ _ _ _ _ _ _ _ _ Hreads)).
    - rewrite Hl. replace (x lcheek - x lcheek) with 0 by ring.
      apply Rabs_R0.
    - rewrite Hr. replace (x rcheek - x rcheek) with 0 by ring.
      apply Rabs_R0. }
  destruct (eline_conforms self landmarks (h, w) _ _ _ _ _ _ _ Hreads)
    as [el [Eel Vel]].
  destruct (proportions_returns self landmarks (h, w) _ _ _ _ _ _ _ Hreads)
    as [pr Epr].
  destruct (face_contour_conforms landmarks (h, w)) as [dc [Ec Vc]].
  destruct (philtrum_chin_conforms landmarks (h, w)) as [dp [Ep Vp]].
  destruct (nasolabial_angle_conforms landmarks) as [dn [En Vn]].
  destruct (vline_conforms landmarks (h, w)) as [dv [Ev Vv]].
  destruct (symmetry_conforms landmarks (h, w)) as [ds [Es Vs]].
  destruct (dental_protrusion_conforms landmarks (h, w)) as [dd [Ed Vd]].
  destruct (facial_harmony_conforms landmarks (h, w)) as [dh [Eh Vh]].
  unfold _perform_comprehensive_analysis.
  rewrite Efa, Ec, Eel, Epr, Ep, En, Ev, Es, Ed, Eh. cbn [bind].
  match goal with
  | |- context [_calculate_overall_score ?ar] =>
      destruct (overall_score_conforms ar) as [dsc [Eo Vo]]
  end.
  rewrite Eo. cbn [bind].
  unfold _generate_beauty_advice. cbn [bind].
  reflexivity.
Qed.

Lemma analysis_level_face_raises_witness :
  _perform_comprehensive_analysis init
    (face centre centre centre centre centre centre centre)
    shape_100 "face.jpg" 0
  = Raise (AnalysisError "comprehensive_analysis"
             (ValidationError "FaceAngle" "ratio")).
Proof.
  apply (analysis_level_face_raises init _ shape_100 "face.jpg" 0%Z
           _ _ _ _ _ _ _ (face_reads _ _ _ _ _ _ _)); reflexivity.
Defined.

Lemma analyze_eline_reads (self : Analyzer.t) (landmarks : list Landmark)
    (image_shape : Z * Z) (eline : pydict) :
  _analyze_eline self landmarks image_shape = Ok eline ->
  exists chin upper lower,
    nth_error landmarks (LandmarkTable.chin_tip (idx self)) = Some chin
    /\ nth_error landmarks (LandmarkTable.upper_lip_center (idx self))
       = Some upper
    /\ nth_error landmarks (LandmarkTable.lower_lip_center (idx self))
       = Some lower.
Proof.
  intros H. unfold _analyze_eline, getitem in H.
  destruct (nth_error landmarks (LandmarkTable.nose_tip (idx self)));
    cbn [bind] in H; [| discriminate].
  destruct (nth_error landmarks (LandmarkTable.chin_tip (idx self)))
    as [chin |]; cbn [bind] in H; [| discriminate].
  destruct (nth_error landmarks (LandmarkTable.upper_lip_center (idx self)))
    as [upper |]; cbn [bind] in H; [| discriminate].
  destruct (nth_error landmarks (LandmarkTable.lower_lip_center (idx self)))
    as [lower |]; cbn [bind] in H; [| discriminate].
  exists chin, upper, lower. repeat split; reflexivity.
Qed.

Lemma analyze_face_proportions_reads (self : Analyzer.t)
    (landmarks : list Landmark) (image_shape : Z * Z) (proportions : pydict) :
  _analyze_face_proportions self landmarks image_shape = Ok proportions ->
  exists forehead,
    nth_error landmarks (LandmarkTable.forehead_center (idx self))
    = Some forehead.
Proof.
  intros H. unfold _analyze_face_proportions, getitem in H.
  destruct (nth_error landmarks (LandmarkTable.forehead_center (idx self)))
    as [forehead |]; cbn [bind] in H; [| discriminate].
  exists forehead. reflexivity.
Qed.

(** What a returned result tells about the landmarks. *)
Lemma analysis_ok_conditions (self : Analyzer.t) (landmarks : list Landmark)
    (image_shape : Z * Z) (filename : string) (now : Z)
    (res : FaceAnalysisResult.t) :
  _perform_comprehensive_analysis self landmarks image_shape filename now
  = Ok res ->
  exists nose chin forehead upper lower lcheek rcheek,
    reads self landmarks nose chin forehead upper lower lcheek rcheek
    /\ ~ (Rabs (x nose - x lcheek) = 0 /\ Rabs (x nose - x rcheek) = 0)
    /\ _calculate_distance lcheek rcheek image_shape <> 0.
Proof.
  intros Hres.
  destruct (analysis_inv self landmarks image_shape filename now res Hres)
    as [fa [el [pr [Efa [Eel [Epr [_ [Vfa [_ [Vpr _]]]]]]]]]].
  destruct (detect_face_angle_reads self landmarks fa Efa)
    as [nose [lcheek [rcheek [Hn [Hl Hr]]]]].
  destruct (analyze_eline_reads self landmarks image_shape el Eel)
    as [chin [upper [lower [Hc [Hu Hlo]]]]].
  destruct (analyze_face_proportions_reads self landmarks image_shape pr Epr)
    as [forehead Hf].
  assert (Hreads : reads self landmarks nose chin forehead upper lower
                         lcheek rcheek) by (split; assumption).
  exists nose, chin, forehead, upper, lower, lcheek, rcheek.
  split; [exact Hreads |]. split.
  - intros [Zl Zr].
    rewrite (detect_face_angle_unknown self landmarks nose lcheek rcheek
               Hn Hl Hr Zl Zr) in Efa.
    injection Efa as <-. discriminate Vfa.
  - intros Hw.
    rewrite (analyze_face_proportions_error self landmarks image_shape
               _ _ _ _ _ _ _ Hreads Hw) in Epr.
    injection Epr as <-. rewrite proportions_error_rejected in Vpr.
    discriminate Vpr.
Qed.

(** The analysis returns a result exactly when the seven landmarks it
    reads exist, the nose tip is not level with both cheeks, and the cheeks
    do not fall on the same pixel. *)
Theorem analysis_returns_iff (self : Analyzer.t) (landmarks : list Landmark)
    (image_shape : Z * Z) (filename : string) (now : Z) :
  (exists res,
     _perform_comprehensive_analysis self landmarks image_shape filename now
     = Ok res)
  <-> exists nose chin forehead upper lower lcheek rcheek,
        reads self landmarks nose chin forehead upper lower lcheek rcheek
        /\ ~ (Rabs (x nose - x lcheek) = 0 /\ Rabs (x nose - x rcheek) = 0)
        /\ _calculate_distance lcheek rcheek image_shape <> 0.
Proof.
  split.
  - intros [res Hres].
    exact (analysis_ok_conditions self landmarks image_shape filename now
             res Hres).
  - intros [nose [chin [forehead [upper [lower [lcheek [rcheek
             [Hreads [Hnz Hw]]]]]]]]].
    exact (analysis_succeeds self landmarks image_shape filename now
             _ _ _ _ _ _ _ Hreads Hnz Hw).
Qed.

(** In every result the analysis returns, the angle warning is present
    exactly when the face was classified oblique; the warning then names
    that label and the confidence 0.5. *)
Theorem angle_warning_iff_oblique (self : Analyzer.t)
    (landmarks : list Landmark) (image_shape : Z * Z) (filename : string)
    (now : Z) (res : FaceAnalysisResult.t) :
  _perform_comprehensive_analysis self landmarks image_shape filename now
  = Ok res ->
  (FaceAnalysisResult.angle_warning res = None
   <-> dict_get "angle" (FaceAnalysisResult.face_angle res)
       <> Some (VStr label_oblique))
  /\ (dict_get "angle" (FaceAnalysisResult.face_angle res)
      = Some (VStr label_oblique) ->
      FaceAnalysisResult.angle_warning res
      = Some (VFmt [VStr "⚠️ 検出された角度: "; VStr label_oblique; VStr " ";
                    VStr "(信頼度: "; VFloat 0.5;
                    VStr ")\n正面顔での撮影を推奨します。"])).
Proof.
  intros Hres.
  destruct (analysis_inv self landmarks image_shape filename now res Hres)
    as [fa [el [pr [Efa [_ [_ [Hw [Vfa _]]]]]]]].
  destruct (detect_face_angle_inv self landmarks fa Efa)
    as [-> | [label [ratio [conf [suit [-> [Hr Hc]]]]]]];
    [discriminate Vfa |].
  assert (Hconf : 0 <= conf <= 1).
  { destruct Hc as [[_ [Hb _]] | [[_ [-> _]] | [[_ [-> _]] | [_ [-> _]]]]];
      lra. }
  cbn in Vfa. rewrite !in_bounds_unit in Vfa by assumption.
  cbn in Vfa. injection Vfa as <-.
  cbn in Hw. cbn [dict_get String.eqb Ascii.eqb Bool.eqb].
  destruct Hc as [[-> [_ ->]] | [[-> [_ ->]] | [[-> [_ ->]] | [-> [-> ->]]]]];
    cbn in Hw; injection Hw as <-; cbn;
    unfold label_frontal, label_facing_right, label_facing_left,
      label_oblique;
    (split; [split; intros; try reflexivity; try discriminate; try congruence
            | intros; try reflexivity; try discriminate]).
Qed.

Lemma oblique_ratio :
  Rabs (0.35 - 0) / (Rabs (0.35 - 0) + Rabs (0.35 - 1)) = 0.35.
Proof.
  rewrite (Rabs_val (0.35 - 0) 0.35), (Rabs_val (0.35 - 1) 0.65) by lra.
  lra.
Qed.

Lemma oblique_not_level :
  ~ (Rabs (0.35 - 0) = 0 /\ Rabs (0.35 - 1) = 0).
Proof. rewrite (Rabs_val (0.35 - 0) 0.35) by lra. lra. Qed.

Lemma angle_warning_iff_oblique_witness :
  exists res,
    _perform_comprehensive_analysis init face_oblique shape_100 "face.jpg" 0
    = Ok res
    /\ FaceAnalysisResult.angle_warning res
       = Some (VFmt [VStr "⚠️ 検出された角度: "; VStr label_oblique; VStr " ";
                     VStr "(信頼度: "; VFloat 0.5;
                     VStr ")\n正面顔での撮影を推奨します。"]).
Proof.
  destruct (analysis_succeeds init face_oblique shape_100 "face.jpg" 0%Z
              _ _ _ _ _ _ _ (face_reads _ _ _ _ _ _ _)
              oblique_not_level
              ltac:(rewrite off_centre_width; lra)) as [res E].
  exists res. split; [exact E |].
  apply (proj2 (angle_warning_iff_oblique init face_oblique shape_100
                  "face.jpg" 0%Z res E)).
  destruct (analysis_inv _ _ _ _ _ _ E)
    as [fa [el [pr [Efa [_ [_ [_ [Vfa _]]]]]]]].
  pose proof (detect_face_angle_oblique init face_oblique
                (mkLandmark 0.35 0.5) (mkLandmark 0 0.5) (mkLandmark 1 0.5)
                eq_refl eq_refl eq_refl) as Hd.
  cbn [x] in Hd. cbv zeta in Hd. rewrite oblique_ratio in Hd.
  rewrite (Hd oblique_not_level ltac:(lra)) in Efa.
  injection Efa as <-.
  assert (Hu : 0 <= py_round 0.35 3 <= 1) by (apply py_round_unit; lra).
  cbn in Vfa. rewrite !in_bounds_unit in Vfa by (try assumption; lra).
  cbn in Vfa. injection Vfa as <-. reflexivity.
Defined.

(** ** E-line in degenerate positions *)

Lemma py_round_zero (n : nat) : py_round 0 n = 0.
Proof. apply py_round_exact with (z := 0%Z). ring. Qed.

Lemma eline_record_zero (landmarks : list Landmark) (image_shape : Z * Z)
    (nose chin forehead upper lower lcheek rcheek : Landmark)
    (upper_d lower_d : R) :
  reads init landmarks nose chin forehead upper lower lcheek rcheek ->
  _point_to_line_distance upper nose chin = Ok upper_d ->
  _point_to_line_distance lower nose chin = Ok lower_d ->
  upper_d * _calculate_distance lcheek rcheek image_shape = 0 ->
  lower_d * _calculate_distance lcheek rcheek image_shape = 0 ->
  _analyze_eline init landmarks image_shape
  = Ok [("status", VStr label_ideal); ("upper_lip_distance", VFloat 0);
        ("lower_lip_distance", VFloat 0); ("evaluation", VStr label_good)].
Proof.
  intros Hreads Eu El Zu Zl.
  destruct (analyze_eline_unfold init landmarks image_shape
              nose chin forehead upper lower lcheek rcheek Hreads)
    as [du [dl [Edu [Edl [_ [_ E]]]]]].
  rewrite Eu in Edu. injection Edu as <-.
  rewrite El in Edl. injection Edl as <-.
  rewrite E. cbv zeta. rewrite Zu, Zl, Rabs_R0.
  change (BeautyStandards.eline_tolerance (std init)) with 2.0.
  unfold py_max. rewrite flt_false by lra.
  rewrite !fle_true by lra. rewrite py_round_zero. reflexivity.
Qed.

(** When the cheeks fall on the same pixel, the measured face width is
    zero, both lip distances are scaled to zero, and the E-line is reported
    ideal whatever the position of the lips. *)
Theorem eline_zero_width_is_ideal (landmarks : list Landmark)
    (image_shape : Z * Z)
    (nose chin forehead upper lower lcheek rcheek : Landmark) :
  reads init landmarks nose chin forehead upper lower lcheek rcheek ->
  _calculate_distance lcheek rcheek image_shape = 0 ->
  _analyze_eline init landmarks image_shape
  = Ok [("status", VStr label_ideal); ("upper_lip_distance", VFloat 0);
        ("lower_lip_distance", VFloat 0); ("evaluation", VStr label_good)].
Proof.
  intros Hreads Hw.
  destruct (point_to_line_total upper nose chin) as [du [Edu _]].
  destruct (point_to_line_total lower nose chin) as [dl [Edl _]].
  apply (eline_record_zero landmarks image_shape
           nose chin forehead upper lower lcheek rcheek du dl Hreads Edu Edl);
    rewrite Hw; ring.
Qed.

Lemma eline_zero_width_is_ideal_witness :
  _analyze_eline init face_narrow shape_100
  = Ok [("status", VStr label_ideal); ("upper_lip_distance", VFloat 0);
        ("lower_lip_distance", VFloat 0); ("evaluation", VStr label_good)].
Proof.
  exact (eline_zero_width_is_ideal face_narrow shape_100 _ _ _ _ _ _ _
           (face_reads _ _ _ _ _ _ _) narrow_width).
Defined.

(** When nose tip and chin tip are distinct and both lip centres lie on the
    line through them, the E-line is reported ideal with zero distances, for
    every image shape. *)
Theorem eline_collinear_lips_is_ideal (landmarks : list Landmark)
    (image_shape : Z * Z)
    (nose chin forehead upper lower lcheek rcheek : Landmark) :
  reads init landmarks nose chin forehead upper lower lcheek rcheek ->
  nose <> chin ->
  (x chin - x nose) * (y upper - y nose)
  - (y chin - y nose) * (x upper - x nose) = 0 ->
  (x chin - x nose) * (y lower - y nose)
  - (y chin - y nose) * (x lower - x nose) = 0 ->
  _analyze_eline init landmarks image_shape
  = Ok [("status", VStr label_ideal); ("upper_lip_distance", VFloat 0);
        ("lower_lip_distance", VFloat 0); ("evaluation", VStr label_good)].
Proof.
  intros Hreads Hnc Hu Hl.
  assert (Eu : _point_to_line_distance upper nose chin = Ok 0).
  { rewrite (point_to_line_proper upper nose chin Hnc), Hu, Rabs_R0.
    f_equal. unfold Rdiv. ring. }
  assert (El : _point_to_line_distance lower nose chin = Ok 0).
  { rewrite (point_to_line_proper lower nose chin Hnc), Hl, Rabs_R0.
    f_equal. unfold Rdiv. ring. }
  apply (eline_record_zero landmarks image_shape
           nose chin forehead upper lower lcheek rcheek 0 0 Hreads Eu El);
    ring.
Qed.

Lemma eline_collinear_lips_is_ideal_witness :
  _analyze_eline init face_symmetric shape_100
  = Ok [("status", VStr label_ideal); ("upper_lip_distance", VFloat 0);
        ("lower_lip_distance", VFloat 0); ("evaluation", VStr label_good)].
Proof.
  apply (eline_collinear_lips_is_ideal face_symmetric shape_100 _ _ _ _ _ _ _
           (face_reads _ _ _ _ _ _ _)).
  - intros E. apply (f_equal y) in E. cbn in E. lra.
  - cbn [x y]. lra.
  - cbn [x y]. lra.
Defined.

(** ** Face proportions as bands of the aspect ratio *)








(** The records of a returned result: the measured ones are the records of
    the three analyzers, the others are the fixed records. *)
Lemma analysis_inv_records (self : Analyzer.t) (landmarks : list Landmark)
    (image_shape : Z * Z) (filename : string) (now : Z)
    (res : FaceAnalysisResult.t) :
  _perform_comprehensive_analysis self landmarks image_shape filename now
  = Ok res ->
  _analyze_eline self landmarks image_shape
  = Ok (FaceAnalysisResult.eline res)
  /\ _analyze_face_proportions self landmarks image_shape
     = Ok (FaceAnalysisResult.proportions res)
  /\ _analyze_facial_harmony landmarks image_shape
     = Ok (FaceAnalysisResult.facial_harmony res)
  /\ _analyze_facial_symmetry landmarks image_shape
     = Ok (FaceAnalysisResult.symmetry res).
Proof.
  intros H.
  pose proof (analysis_ok_conditions self landmarks image_shape filename now
                res H) as Hcond.
  destruct image_shape as [h w].
  unfold _perform_comprehensive_analysis in H.
  destruct (_detect_face_angle self landmarks) as [fa |] eqn:Efa;
    cbn [bind try_except] in H; [| discriminate].
  destruct (face_contour_conforms landmarks (h, w)) as [dc [Ec Vc]].
  rewrite Ec in H. cbn [bind] in H.
  destruct (_analyze_eline self landmarks (h, w)) as [el |] eqn:Eel;
    cbn [bind try_except] in H; [| discriminate].
  destruct (_analyze_face_proportions self landmarks (h, w)) as [pr |] eqn:Epr;
    cbn [bind try_except] in H; [| discriminate].
  destruct (philtrum_chin_conforms landmarks (h, w)) as [dp [Ep Vp]].
  rewrite Ep in H. cbn [bind] in H.
  destruct (nasolabial_angle_conforms landmarks) as [dn [En Vn]].
  rewrite En in H. cbn [bind] in H.
  destruct (vline_conforms landmarks (h, w)) as [dv [Ev Vv]].
  rewrite Ev in H. cbn [bind] in H.
  destruct (symmetry_conforms landmarks (h, w)) as [ds [Es Vs]].
  rewrite Es in H. cbn [bind] in H.
  destruct (dental_protrusion_conforms landmarks (h, w)) as [dd [Ed Vd]].
  rewrite Ed in H. cbn [bind] in H.
  destruct (facial_harmony_conforms landmarks (h, w)) as [dh [Eh Vh]].
  rewrite Eh in H. cbn [bind] in H.
  match type of H with
  | context [_calculate_overall_score ?ar] =>
      destruct (overall_score_conforms ar) as [dsc [Eo Vo]]
  end.
  rewrite Eo in H. cbn [bind] in H.
  unfold _generate_beauty_advice in H. cbn [bind] in H.
  destruct (_get_angle_warning fa) as [aw |] eqn:Eaw;
    cbn [bind try_except] in H; [| discriminate].
  unfold FaceAnalysisResult_init in H.
  destruct (validate_model "FaceAngle" FaceAngle fa) as [fa' |] eqn:Vfa;
    cbn [bind try_except] in H; [| discriminate].
  rewrite Vc in H. cbn [bind] in H.
  destruct (validate_model "ElineAnalysis" ElineAnalysis el) as [el' |] eqn:Vel;
    cbn [bind try_except] in H; [| discriminate].
  destruct (validate_model "FaceProportions" FaceProportions pr)
    as [pr' |] eqn:Vpr;
    cbn [bind try_except] in H; [| discriminate].
  rewrite Vp in H. cbn [bind] in H.
  rewrite Vn in H. cbn [bind] in H.
  rewrite Vv in H. cbn [bind] in H.
  rewrite Vs in H. cbn [bind] in H.
  rewrite Vd in H. cbn [bind] in H.
  rewrite Vh in H. cbn [bind] in H.
  rewrite Vo in H. cbn [bind] in H.
  match type of H with
  | context [validate_list_str ?m ?f ?l] =>
      destruct (validate_list_str m f l) as [adv |] eqn:Vadv;
      cbn [bind try_except] in H; [| discriminate]
  end.
  apply validate_list_str_inv in Vadv. subst adv.
  destruct (validate_optional_str "FaceAnalysisResult" "angle_warning" aw)
    as [aw' |] eqn:Vaw;
    cbn [bind try_except] in H; [| discriminate].
  apply validate_optional_str_inv in Vaw. subst aw'.
  injection H as <-.
  cbn.
  destruct Hcond
    as [nose [chin [forehead [upper [lower [lcheek [rcheek
         [Hreads [_ Hwd]]]]]]]]].
  destruct (eline_conforms self landmarks (h, w) _ _ _ _ _ _ _ Hreads)
    as [el0 [Eel0 Vel0]].
  destruct (proportions_conforms self landmarks (h, w) _ _ _ _ _ _ _
              Hreads Hwd) as [pr0 [Epr0 Vpr0]].
  rewrite Eel0 in Eel. injection Eel as <-.
  rewrite Epr0 in Epr. injection Epr as <-.
  rewrite Vel0 in Vel. injection Vel as <-.
  rewrite Vpr0 in Vpr. injection Vpr as <-.
  repeat split; assumption.
Qed.

(** ** Scores and colours derived from the records *)

Lemma symmetric_eline_record :
  _analyze_eline init face_symmetric shape_100
  = Ok [("status", VStr label_ideal); ("upper_lip_distance", VFloat 0);
        ("lower_lip_distance", VFloat 0); ("evaluation", VStr label_good)].
Proof.
  assert (Hnc : mkLandmark 0.5 0.5 <> mkLandmark 0.5 0.9).
  { intros E. apply (f_equal y) in E. cbn in E. lra. }
  apply (eline_record_zero face_symmetric shape_100 _ _ _ _ _ _ _ 0 0
           (face_reads _ _ _ _ _ _ _)); try ring.
  - rewrite (point_to_line_proper _ _ _ Hnc). cbn [x y].
    replace ((0.5 - 0.5) * (0.65 - 0.5) - (0.9 - 0.5) * (0.5 - 0.5)) with 0
      by lra.
    rewrite Rabs_R0. f_equal. unfold Rdiv. ring.
  - rewrite (point_to_line_proper _ _ _ Hnc). cbn [x y].
    replace ((0.5 - 0.5) * (0.7 - 0.5) - (0.9 - 0.5) * (0.5 - 0.5)) with 0
      by lra.
    rewrite Rabs_R0. f_equal. unfold Rdiv. ring.
Qed.

(** The score that the LINE bot derives from an E-line record is never 90:
    it reads the evaluation, not the status, so an ideal E-line scores 80 and
    every other one 70. *)
Theorem extract_score_of_eline (landmarks : list Landmark)
    (image_shape : Z * Z)
    (nose chin forehead upper lower lcheek rcheek : Landmark) :
  reads init landmarks nose chin forehead upper lower lcheek rcheek ->
  exists eline status,
    _analyze_eline init landmarks image_shape = Ok eline
    /\ dict_get "status" eline = Some (VStr status)
    /\ (status = label_ideal -> _extract_score eline = Some 80)
    /\ (status <> label_ideal -> _extract_score eline = Some 70)
    /\ _extract_score eline <> Some 90.
Proof.
  intros Hreads.
  destruct (analyze_eline_unfold init landmarks image_shape
              nose chin forehead upper lower lcheek rcheek Hreads)
    as [du [dl [_ [_ [_ [_ E]]]]]].
  cbv zeta in E.
  change (BeautyStandards.eline_tolerance (std init)) with 2.0 in E.
  set (fw := _calculate_distance lcheek rcheek image_shape) in *.
  set (m := py_max (Rabs (du * fw)) (Rabs (dl * fw))) in *.
  eexists. eexists. split; [exact E |].
  split; [reflexivity |].
  destruct (fle m 2.0) eqn:E2.
  - match goal with
    | |- context [_extract_score ?d] =>
        assert (Hv : _extract_score d = Some 80.0) by reflexivity
    end.
    rewrite !Hv. unfold label_ideal.
    split; [intros _; f_equal; lra |].
    split; [intros Hne; exfalso; apply Hne; reflexivity |].
    intros [= H]. lra.
  - match goal with
    | |- context [_extract_score ?d] =>
        assert (Hv : _extract_score d = Some 70.0) by reflexivity
    end.
    rewrite !Hv. unfold label_ideal.
    split.
    + intros Hi. exfalso. revert Hi.
      destruct (fle m 7.0); [| destruct (flt (dl * fw) (du * fw))];
        discriminate.
    + split; [intros _; f_equal; lra |].
      intros [= H]. lra.
Qed.

Lemma extract_score_of_eline_witness :
  exists eline,
    _analyze_eline init face_symmetric shape_100 = Ok eline
    /\ _extract_score eline = Some 80.
Proof.
  destruct (extract_score_of_eline face_symmetric shape_100 _ _ _ _ _ _ _
              (face_reads _ _ _ _ _ _ _))
    as [el [status [E [Hst [Hi _]]]]].
  exists el. split; [exact E |]. apply Hi.
  rewrite symmetric_eline_record in E.
  injection E as <-. cbn in Hst. now injection Hst as <-.
Defined.

(** The score that the LINE bot derives from a proportions record follows
    its evaluation: excellent 90, good 80, standard 70, individual 60; the
    error marker of a zero face width has neither score nor evaluation and
    gets the default 70. *)
Theorem extract_score_of_proportions (landmarks : list Landmark)
    (image_shape : Z * Z)
    (nose chin forehead upper lower lcheek rcheek : Landmark) :
  reads init landmarks nose chin forehead upper lower lcheek rcheek ->
  exists proportions,
    _analyze_face_proportions init landmarks image_shape = Ok proportions
    /\ (_calculate_distance lcheek rcheek image_shape = 0 ->
        _extract_score proportions = Some 70)
    /\ (_calculate_distance lcheek rcheek image_shape <> 0 ->
        exists evaluation,
          dict_get "evaluation" proportions = Some (VStr evaluation)
          /\ ((evaluation = label_excellent
               /\ _extract_score proportions = Some 90)
              \/ (evaluation = label_good
                  /\ _extract_score proportions = Some 80)
              \/ (evaluation = label_standard
                  /\ _extract_score proportions = Some 70)
              \/ (evaluation = label_individual
                  /\ _extract_score proportions = Some 60))).
Proof.
  intros Hreads.
  destruct (Req_dec_T (_calculate_distance lcheek rcheek image_shape) 0)
    as [Hw | Hw].
  - rewrite (analyze_face_proportions_error init landmarks image_shape
               _ _ _ _ _ _ _ Hreads Hw).
    eexists. split; [reflexivity |]. split; [| intros Hn; contradiction].
    intros _.
    assert (Hv : _extract_score [("error", VStr proportions_error_message)]
                 = Some 70.0) by reflexivity.
    rewrite Hv. f_equal. lra.
  - rewrite (analyze_face_proportions_unfold init landmarks image_shape
               _ _ _ _ _ _ _ Hreads Hw).
    cbv zeta.
    eexists. split; [reflexivity |]. split; [intros Hz; contradiction |].
    intros _. eexists. split; [reflexivity |].
    unfold label_excellent, label_good, label_standard, label_individual.
    match goal with
    | |- context [flt ?md 0.15] =>
        destruct (flt md 0.15);
        [| destruct (flt md 0.25); [| destruct (flt md 0.35)]]
    end.
    + left. split; [reflexivity |].
      match goal with
      | |- _extract_score ?d = _ =>
          assert (Hv : _extract_score d = Some 90.0) by reflexivity
      end.
      rewrite Hv. f_equal. lra.
    + right. left. split; [reflexivity |].
      match goal with
      | |- _extract_score ?d = _ =>
          assert (Hv : _extract_score d = Some 80.0) by reflexivity
      end.
      rewrite Hv. f_equal. lra.
    + right. right. left. split; [reflexivity |].
      match goal with
      | |- _extract_score ?d = _ =>
          assert (Hv : _extract_score d = Some 70.0) by reflexivity
      end.
      rewrite Hv. f_equal. lra.
    + right. right. right. split; [reflexivity |].
      match goal with
      | |- _extract_score ?d = _ =>
          assert (Hv : _extract_score d = Some 60.0) by reflexivity
      end.
      rewrite Hv. f_equal. lra.
Qed.

Lemma extract_score_of_proportions_witness :
  exists proportions,
    _analyze_face_proportions init face_narrow shape_100 = Ok proportions
    /\ _extract_score proportions = Some 70.
Proof.
  destruct (extract_score_of_proportions face_narrow shape_100 _ _ _ _ _ _ _
              (face_reads _ _ _ _ _ _ _)) as [pr [E [Hz _]]].
  exists pr. split; [exact E | exact (Hz narrow_width)].
Defined.

(** None of the keywords of the report's evaluation colours occurs in an
    evaluation that the analysis produces, so in every returned result the
    evaluations of proportions, E-line, harmony and symmetry are all shown
    in the danger colour. *)
Theorem report_evaluation_colors_are_danger (self : Analyzer.t)
    (landmarks : list Landmark) (image_shape : Z * Z) (filename : string)
    (now : Z) (res : FaceAnalysisResult.t) :
  _perform_comprehensive_analysis self landmarks image_shape filename now
  = Ok res ->
  evaluation_color (FaceAnalysisResult.proportions res) = Some color_danger
  /\ evaluation_color (FaceAnalysisResult.eline res) = Some color_danger
  /\ evaluation_color (FaceAnalysisResult.facial_harmony res)
     = Some color_danger
  /\ evaluation_color (FaceAnalysisResult.symmetry res) = Some color_danger.
Proof.
  intros Hres.
  destruct (analysis_ok_conditions self landmarks image_shape filename now
              res Hres)
    as [nose [chin [forehead [upper [lower [lcheek [rcheek
         [Hreads [_ Hw]]]]]]]]].
  destruct (analysis_inv_records self landmarks image_shape filename now
              res Hres) as [Eel [Epr [Eh Es]]].
  destruct (analyze_eline_unfold self landmarks image_shape
              nose chin forehead upper lower lcheek rcheek Hreads)
    as [du [dl [_ [_ [_ [_ E]]]]]].
  rewrite E in Eel. cbv zeta in Eel. injection Eel as <-.
  rewrite (analyze_face_proportions_unfold self landmarks image_shape
             _ _ _ _ _ _ _ Hreads Hw) in Epr.
  cbv zeta in Epr. injection Epr as <-.
  unfold _analyze_facial_harmony in Eh. injection Eh as <-.
  unfold _analyze_facial_symmetry in Es. injection Es as <-.
  split; [| split; [| split]].
  - match goal with
    | |- context [flt ?md 0.15] =>
        destruct (flt md 0.15);
        [| destruct (flt md 0.25); [| destruct (flt md 0.35)]]
    end; reflexivity.
  - match goal with
    | |- context [fle ?m (BeautyStandards.eline_tolerance (std self))] =>
        destruct (fle m (BeautyStandards.eline_tolerance (std self)))
    end; reflexivity.
  - reflexivity.
  - reflexivity.
Qed.

Lemma report_evaluation_colors_are_danger_witness :
  exists res,
    _perform_comprehensive_analysis init face_symmetric shape_100 "face.jpg" 0
    = Ok res
    /\ evaluation_color (FaceAnalysisResult.eline res) = Some color_danger.
Proof.
  destruct (symmetric_run_succeeds 0) as [res E].
  exists res. split; [exact E |].
  exact (proj1 (proj2 (report_evaluation_colors_are_danger init
                         face_symmetric shape_100 "face.jpg" 0%Z res E))).
Defined.
